(** * BME680 measurement controller (mbed_bme680.cpp)

    A shallow embedding of the C++ wrapper class [BME680] around the vendor
    compensation engine, and the properties of its setters, its acquisition
    cycle and its typed accessors.

    Integers are [Z]; where the source narrows a value, in the [uint8_t]
    accumulator of the settings request, the wrap-around is written out.
    The [float] results of the accessors are IEEE-754 binary32 values over
    [spec_float].  The object is a record threaded through every member
    function.  The vendor engine and the scheduler are reached only through
    the [engine] record; the statements hold for every engine, under the
    assumptions on it that they name. *)

From Stdlib Require Import ZArith List Bool Lia QArith.
From Stdlib Require Import Floats.SpecFloat.
From Stdlib Require Import Qpower.
Import ListNotations.
Local Open Scope Z_scope.

(** ** Header constants

    The macros and enumerators of the vendor header [bme680_defs.h] that the
    wrapper names.  The header is not part of the translation unit modelled
    here, so the values are a parameter of the whole development. *)
Class bme680_defs : Type := {
  BME680_OK : Z;
  BME680_I2C_INTF : Z;
  BME680_FORCED_MODE : Z;
  BME680_OS_NONE : Z;
  BME680_OS_2X : Z;
  BME680_OS_4X : Z;
  BME680_OS_8X : Z;
  BME680_OS_16X : Z;
  BME680_FILTER_SIZE_0 : Z;
  BME680_FILTER_SIZE_3 : Z;
  BME680_FILTER_SIZE_127 : Z;
  BME680_OST_SEL : Z;
  BME680_OSH_SEL : Z;
  BME680_OSP_SEL : Z;
  BME680_FILTER_SEL : Z;
  BME680_GAS_SENSOR_SEL : Z;
  BME680_HEAT_STAB_MSK : Z;
  BME680_ENABLE_GAS_MEAS : Z;
  BME680_DISABLE_GAS_MEAS : Z
}.

(** The values Bosch ships in [bme680_defs.h]; [BME680_GAS_SENSOR_SEL] is
    [BME680_GAS_MEAS_SEL | BME680_RUN_GAS_SEL | BME680_NBCONV_SEL]. *)
Definition bosch_defs : bme680_defs := {|
  BME680_OK := 0;
  BME680_I2C_INTF := 1;
  BME680_FORCED_MODE := 1;
  BME680_OS_NONE := 0;
  BME680_OS_2X := 2;
  BME680_OS_4X := 3;
  BME680_OS_8X := 4;
  BME680_OS_16X := 5;
  BME680_FILTER_SIZE_0 := 0;
  BME680_FILTER_SIZE_3 := 2;
  BME680_FILTER_SIZE_127 := 7;
  BME680_OST_SEL := 1;
  BME680_OSH_SEL := 4;
  BME680_OSP_SEL := 2;
  BME680_FILTER_SEL := 16;
  BME680_GAS_SENSOR_SEL := 200;
  BME680_HEAT_STAB_MSK := 16;
  BME680_ENABLE_GAS_MEAS := 1;
  BME680_DISABLE_GAS_MEAS := 0
|}.

(** ** Machine integers *)

(** Conversion to [uint8_t]: the value modulo 2^8. *)
Definition to_uint8 (x : Z) : Z := x mod 256.

(** ** Data model *)

(** The member functions installed as bus and delay callbacks. *)
Inductive callback : Type :=
| cb_i2c_read
| cb_i2c_write
| cb_delay_msec.

(** [struct bme680_tph_sett]: oversampling levels and IIR filter size. *)
Record bme680_tph_sett : Type := mk_tph_sett {
  os_hum : Z;
  os_temp : Z;
  os_pres : Z;
  filter : Z
}.

(** [struct bme680_gas_sett]: the heater profile. *)
Record bme680_gas_sett : Type := mk_gas_sett {
  run_gas : Z;
  heatr_temp : Z;
  heatr_dur : Z
}.

(** [struct bme680_dev], the device descriptor handed to every engine
    routine: the members the wrapper reads or writes. *)
Record bme680_dev : Type := mk_dev {
  dev_id : Z;
  intf : Z;
  read : option callback;
  write : option callback;
  delay_ms : option callback;
  power_mode : Z;
  tph_sett : bme680_tph_sett;
  gas_sett : bme680_gas_sett
}.

(** [struct bme680_field_data], the raw sample: [status] is a [uint8_t]
    bitfield, [temperature] an [int16_t], the other three [uint32_t]. *)
Record bme680_field_data : Type := mk_field_data {
  status : Z;
  temperature : Z;
  pressure : Z;
  humidity : Z;
  gas_resistance : Z
}.

(** The [BME680] object. *)
Record BME680 : Type := mk_BME680 {
  _adr : Z;
  gas_sensor : bme680_dev;
  data : bme680_field_data;
  _filterEnabled : bool;
  _tempEnabled : bool;
  _humEnabled : bool;
  _presEnabled : bool;
  _gasEnabled : bool
}.

(** *** Member assignment *)

Definition set_os_hum (v : Z) (t : bme680_tph_sett) : bme680_tph_sett :=
  mk_tph_sett v (os_temp t) (os_pres t) (filter t).
Definition set_os_temp (v : Z) (t : bme680_tph_sett) : bme680_tph_sett :=
  mk_tph_sett (os_hum t) v (os_pres t) (filter t).
Definition set_os_pres (v : Z) (t : bme680_tph_sett) : bme680_tph_sett :=
  mk_tph_sett (os_hum t) (os_temp t) v (filter t).
Definition set_filter (v : Z) (t : bme680_tph_sett) : bme680_tph_sett :=
  mk_tph_sett (os_hum t) (os_temp t) (os_pres t) v.

Definition set_tph_sett (t : bme680_tph_sett) (d : bme680_dev) : bme680_dev :=
  mk_dev (dev_id d) (intf d) (read d) (write d) (delay_ms d) (power_mode d)
         t (gas_sett d).
Definition set_gas_sett (g : bme680_gas_sett) (d : bme680_dev) : bme680_dev :=
  mk_dev (dev_id d) (intf d) (read d) (write d) (delay_ms d) (power_mode d)
         (tph_sett d) g.
Definition set_power_mode (m : Z) (d : bme680_dev) : bme680_dev :=
  mk_dev (dev_id d) (intf d) (read d) (write d) (delay_ms d) m
         (tph_sett d) (gas_sett d).

Definition set_gas_sensor (d : bme680_dev) (o : BME680) : BME680 :=
  mk_BME680 (_adr o) d (data o) (_filterEnabled o) (_tempEnabled o)
            (_humEnabled o) (_presEnabled o) (_gasEnabled o).
Definition set_data (s : bme680_field_data) (o : BME680) : BME680 :=
  mk_BME680 (_adr o) (gas_sensor o) s (_filterEnabled o) (_tempEnabled o)
            (_humEnabled o) (_presEnabled o) (_gasEnabled o).
Definition set_filterEnabled (b : bool) (o : BME680) : BME680 :=
  mk_BME680 (_adr o) (gas_sensor o) (data o) b (_tempEnabled o)
            (_humEnabled o) (_presEnabled o) (_gasEnabled o).
Definition set_tempEnabled (b : bool) (o : BME680) : BME680 :=
  mk_BME680 (_adr o) (gas_sensor o) (data o) (_filterEnabled o) b
            (_humEnabled o) (_presEnabled o) (_gasEnabled o).
Definition set_humEnabled (b : bool) (o : BME680) : BME680 :=
  mk_BME680 (_adr o) (gas_sensor o) (data o) (_filterEnabled o)
            (_tempEnabled o) b (_presEnabled o) (_gasEnabled o).
Definition set_presEnabled (b : bool) (o : BME680) : BME680 :=
  mk_BME680 (_adr o) (gas_sensor o) (data o) (_filterEnabled o)
            (_tempEnabled o) (_humEnabled o) b (_gasEnabled o).
Definition set_gasEnabled (b : bool) (o : BME680) : BME680 :=
  mk_BME680 (_adr o) (gas_sensor o) (data o) (_filterEnabled o)
            (_tempEnabled o) (_humEnabled o) (_presEnabled o) b.

(** The five enable flags, in the order temperature, humidity, pressure,
    filter, gas. *)
Definition enable_flags (o : BME680) : list bool :=
  [_tempEnabled o; _humEnabled o; _presEnabled o; _filterEnabled o;
   _gasEnabled o].

(** ** Setters *)

Section Setters.
Context {defs : bme680_defs}.

(** [bool BME680::setGasHeater(uint16_t heaterTemp, uint16_t heaterTime)] *)
Definition setGasHeater (heaterTemp heaterTime : Z) (o : BME680)
  : bool * BME680 :=
  let g := gas_sett (gas_sensor o) in
  let g := mk_gas_sett (run_gas g) heaterTemp (heatr_dur g) in
  let g := mk_gas_sett (run_gas g) (heatr_temp g) heaterTime in
  if (heaterTemp =? 0) || (heaterTime =? 0) then
    let g := mk_gas_sett BME680_DISABLE_GAS_MEAS (heatr_temp g) (heatr_dur g) in
    (true, set_gasEnabled false (set_gas_sensor (set_gas_sett g (gas_sensor o)) o))
  else
    let g := mk_gas_sett BME680_ENABLE_GAS_MEAS (heatr_temp g) (heatr_dur g) in
    (true, set_gasEnabled true (set_gas_sensor (set_gas_sett g (gas_sensor o)) o)).

(** [bool BME680::setTemperatureOversampling(uint8_t oversample)] *)
Definition setTemperatureOversampling (oversample : Z) (o : BME680)
  : bool * BME680 :=
  if oversample >? BME680_OS_16X then (false, o)
  else
    let d := gas_sensor o in
    let o := set_gas_sensor (set_tph_sett (set_os_temp oversample (tph_sett d)) d) o in
    if oversample =? BME680_OS_NONE then (true, set_tempEnabled false o)
    else (true, set_tempEnabled true o).

(** [bool BME680::setHumidityOversampling(uint8_t oversample)] *)
Definition setHumidityOversampling (oversample : Z) (o : BME680)
  : bool * BME680 :=
  if oversample >? BME680_OS_16X then (false, o)
  else
    let d := gas_sensor o in
    let o := set_gas_sensor (set_tph_sett (set_os_hum oversample (tph_sett d)) d) o in
    if oversample =? BME680_OS_NONE then (true, set_humEnabled false o)
    else (true, set_humEnabled true o).

(** [bool BME680::setPressureOversampling(uint8_t oversample)] *)
Definition setPressureOversampling (oversample : Z) (o : BME680)
  : bool * BME680 :=
  if oversample >? BME680_OS_16X then (false, o)
  else
    let d := gas_sensor o in
    let o := set_gas_sensor (set_tph_sett (set_os_pres oversample (tph_sett d)) d) o in
    if oversample =? BME680_OS_NONE then (true, set_presEnabled false o)
    else (true, set_presEnabled true o).

(** [bool BME680::setIIRFilterSize(uint8_t filter_seize)] *)
Definition setIIRFilterSize (filter_seize : Z) (o : BME680)
  : bool * BME680 :=
  if filter_seize >? BME680_FILTER_SIZE_127 then (false, o)
  else
    let d := gas_sensor o in
    let o := set_gas_sensor (set_tph_sett (set_filter filter_seize (tph_sett d)) d) o in
    if filter_seize =? BME680_FILTER_SIZE_0 then (true, set_filterEnabled false o)
    else (true, set_filterEnabled true o).

End Setters.

(** ** The external engine

    The vendor routines [bme680_init], [bme680_set_sensor_settings],
    [bme680_set_sensor_mode], [bme680_get_profile_dur] and
    [bme680_get_sensor_data], and the scheduler's [ThisThread::sleep_for].
    [W] is everything they own: sensor, bus, calibration, clock.  Each
    routine receives the descriptor by pointer and therefore answers with the
    descriptor as it leaves it; [bme680_get_sensor_data] also receives a
    pointer to the sample buffer.  Status codes are [int8_t]. *)
Record engine (W : Type) : Type := mk_engine {
  bme680_init : bme680_dev -> W -> Z * bme680_dev * W;
  bme680_set_sensor_settings : Z -> bme680_dev -> W -> Z * bme680_dev * W;
  bme680_set_sensor_mode : bme680_dev -> W -> Z * bme680_dev * W;
  bme680_get_profile_dur : bme680_dev -> W -> Z * bme680_dev * W;
  bme680_get_sensor_data :
    bme680_field_data -> bme680_dev -> W -> Z * bme680_field_data * bme680_dev * W;
  sleep_for : Z -> W -> W
}.
Arguments bme680_init {W} _ _ _.
Arguments bme680_set_sensor_settings {W} _ _ _ _.
Arguments bme680_set_sensor_mode {W} _ _ _.
Arguments bme680_get_profile_dur {W} _ _ _.
Arguments bme680_get_sensor_data {W} _ _ _ _.
Arguments sleep_for {W} _ _ _.

(** The settings request of [performReading]: [uint8_t
    set_required_settings = 0] and the five conditional [|=] that follow,
    each stored back into the [uint8_t]. *)
Definition required_settings {defs : bme680_defs} (o : BME680) : Z :=
  let set_required_settings := 0 in
  let set_required_settings :=
    if _tempEnabled o
    then to_uint8 (Z.lor set_required_settings BME680_OST_SEL)
    else set_required_settings in
  let set_required_settings :=
    if _humEnabled o
    then to_uint8 (Z.lor set_required_settings BME680_OSH_SEL)
    else set_required_settings in
  let set_required_settings :=
    if _presEnabled o
    then to_uint8 (Z.lor set_required_settings BME680_OSP_SEL)
    else set_required_settings in
  let set_required_settings :=
    if _filterEnabled o
    then to_uint8 (Z.lor set_required_settings BME680_FILTER_SEL)
    else set_required_settings in
  let set_required_settings :=
    if _gasEnabled o
    then to_uint8 (Z.lor set_required_settings BME680_GAS_SENSOR_SEL)
    else set_required_settings in
  set_required_settings.

(** ** Initialisation and the acquisition cycle

    [BME680::log] compiles to nothing unless [BME680_DEBUG_MODE] is defined
    and never affects control flow; its calls are left out. *)
Section Controller.
Context {defs : bme680_defs} {W : Type} (E : engine W).

(** [void BME680::delay_msec(uint32_t ms)] *)
Definition delay_msec (ms : Z) (w : W) : W := sleep_for E ms w.

(** [bool BME680::begin()] *)
Definition begin (o : BME680) (w : W) : bool * BME680 * W :=
  let d := gas_sensor o in
  let d := mk_dev (_adr o) BME680_I2C_INTF (Some cb_i2c_read)
                  (Some cb_i2c_write) (Some cb_delay_msec)
                  (power_mode d) (tph_sett d) (gas_sett d) in
  let o := set_gas_sensor d o in
  let o := snd (setHumidityOversampling BME680_OS_2X o) in
  let o := snd (setPressureOversampling BME680_OS_4X o) in
  let o := snd (setTemperatureOversampling BME680_OS_8X o) in
  let o := snd (setIIRFilterSize BME680_FILTER_SIZE_3 o) in
  let o := snd (setGasHeater 320 150 o) in
  let '(result, d, w) := bme680_init E (gas_sensor o) w in
  let o := set_gas_sensor d o in
  if negb (result =? BME680_OK) then (false, o, w)
  else (true, o, w).

(** [bool BME680::performReading(void)] *)
Definition performReading (o : BME680) (w : W) : bool * BME680 * W :=
  let o := set_gas_sensor (set_power_mode BME680_FORCED_MODE (gas_sensor o)) o in
  let set_required_settings := required_settings o in
  let '(result, d, w) :=
    bme680_set_sensor_settings E set_required_settings (gas_sensor o) w in
  let o := set_gas_sensor d o in
  if negb (result =? BME680_OK) then (false, o, w)
  else
    let '(result, d, w) := bme680_set_sensor_mode E (gas_sensor o) w in
    let o := set_gas_sensor d o in
    if negb (result =? BME680_OK) then (false, o, w)
    else
      let '(meas_period, d, w) := bme680_get_profile_dur E (gas_sensor o) w in
      let o := set_gas_sensor d o in
      let w := delay_msec meas_period w in
      let '(result, s, d, w) :=
        bme680_get_sensor_data E (data o) (gas_sensor o) w in
      let o := set_data s (set_gas_sensor d o) in
      if negb (result =? BME680_OK) then (false, o, w)
      else (true, o, w).

End Controller.

(** The value a member function returns and the object it leaves. *)
Definition returned {A B C : Type} (x : A * B * C) : A := fst (fst x).
Definition object_after {A B C : Type} (x : A * B * C) : B := snd (fst x).

(** ** Accessors *)

(** IEEE-754 binary64 ([double]) and binary32 ([float]) values are
    [spec_float]s rounded to nearest even at precision 53 resp. 24. *)
Definition double_of_int (z : Z) : spec_float := binary_normalize 53 1024 z 0 false.
Definition float_of_int (z : Z) : spec_float := binary_normalize 24 128 z 0 false.
Definition float_of_double (x : spec_float) : spec_float :=
  match x with
  | S754_finite s m e => binary_round 24 128 s m e
  | _ => x
  end.
Definition double_div (x y : spec_float) : spec_float := SFdiv 53 1024 x y.

(** The macro [NAN] of [<cmath>]. *)
Definition NAN : spec_float := S754_nan.

(** The exact rational value of a finite floating-point number. *)
Definition SF2Q (x : spec_float) : option Q :=
  match x with
  | S754_zero _ => Some 0%Q
  | S754_finite s m e => Some (inject_Z (cond_Zopp s (Zpos m)) * Qpower 2 e)%Q
  | _ => None
  end.

Section Accessors.
Context {defs : bme680_defs}.

(** [bool BME680::isGasHeatingSetupStable()] *)
Definition isGasHeatingSetupStable (o : BME680) : bool :=
  if negb (Z.land (status (data o)) BME680_HEAT_STAB_MSK =? 0) then true
  else false.

(** [int16_t BME680::getRawTemperature()] *)
Definition getRawTemperature (o : BME680) : Z := temperature (data o).
(** [uint32_t BME680::getRawPressure()] *)
Definition getRawPressure (o : BME680) : Z := pressure (data o).
(** [uint32_t BME680::getRawHumidity()] *)
Definition getRawHumidity (o : BME680) : Z := humidity (data o).
(** [uint32_t BME680::getRawGasResistance()] *)
Definition getRawGasResistance (o : BME680) : Z := gas_resistance (data o).

(** [float BME680::getTemperature()] *)
Definition getTemperature (o : BME680) : spec_float :=
  let temperature_ := NAN in
  if _tempEnabled o then
    float_of_double
      (double_div (double_of_int (temperature (data o))) (double_of_int 100))
  else temperature_.

(** [float BME680::getHumidity()] *)
Definition getHumidity (o : BME680) : spec_float :=
  let humidity_ := NAN in
  if _humEnabled o then
    float_of_double
      (double_div (double_of_int (humidity (data o))) (double_of_int 1000))
  else humidity_.

(** [float BME680::getPressure()] *)
Definition getPressure (o : BME680) : spec_float :=
  let pressure_ := NAN in
  if _presEnabled o then float_of_int (pressure (data o))
  else pressure_.

(** [float BME680::getGasResistance()] *)
Definition getGasResistance (o : BME680) : spec_float :=
  let gas_resistance_ := float_of_int 0 in
  if _gasEnabled o then
    if isGasHeatingSetupStable o then float_of_int (gas_resistance (data o))
    else gas_resistance_
  else gas_resistance_.

End Accessors.

(** [BME680::BME680(uint8_t adr, PinName sda, PinName scl)]: clears the five
    flags and stores the address.  [gas_sensor] and [data] are not
    initialised by the constructor; [d] and [s] are what they happen to
    hold. *)
Definition BME680_new (adr : Z) (d : bme680_dev) (s : bme680_field_data)
  : BME680 :=
  mk_BME680 adr d s false false false false false.

(** ** Observing the engine calls

    [recording E] behaves as [E] and appends every call, with its arguments
    and its answer, to a log kept next to the world. *)
Inductive event : Type :=
| ev_init (dev : bme680_dev) (rslt : Z)
| ev_set_sensor_settings (desired_settings : Z) (dev : bme680_dev) (rslt : Z)
| ev_set_sensor_mode (dev : bme680_dev) (rslt : Z)
| ev_get_profile_dur (dev : bme680_dev) (duration : Z)
| ev_sleep_for (ms : Z)
| ev_get_sensor_data (buf : bme680_field_data) (dev : bme680_dev) (rslt : Z)
                     (out : bme680_field_data).

Definition recording {W : Type} (E : engine W) : engine (W * list event) :=
  mk_engine (W * list event)
    (fun dev wl =>
       let '(r, d, w) := bme680_init E dev (fst wl) in
       (r, d, (w, snd wl ++ [ev_init dev r])))
    (fun desired dev wl =>
       let '(r, d, w) := bme680_set_sensor_settings E desired dev (fst wl) in
       (r, d, (w, snd wl ++ [ev_set_sensor_settings desired dev r])))
    (fun dev wl =>
       let '(r, d, w) := bme680_set_sensor_mode E dev (fst wl) in
       (r, d, (w, snd wl ++ [ev_set_sensor_mode dev r])))
    (fun dev wl =>
       let '(t, d, w) := bme680_get_profile_dur E dev (fst wl) in
       (t, d, (w, snd wl ++ [ev_get_profile_dur dev t])))
    (fun buf dev wl =>
       let '(r, out, d, w) := bme680_get_sensor_data E buf dev (fst wl) in
       (r, out, d, (w, snd wl ++ [ev_get_sensor_data buf dev r out])))
    (fun ms wl => (sleep_for E ms (fst wl), snd wl ++ [ev_sleep_for ms])).

(** The engine calls of one [begin] resp. one [performReading]. *)
Definition begin_log {defs : bme680_defs} {W : Type} (E : engine W)
    (o : BME680) (w : W) : list event :=
  snd (snd (begin (recording E) o (w, []))).
Definition performReading_log {defs : bme680_defs} {W : Type} (E : engine W)
    (o : BME680) (w : W) : list event :=
  snd (snd (performReading (recording E) o (w, []))).

(** The three fallible steps of the acquisition cycle. *)
Inductive step : Type := SettingsPush | ModeSet | DataFetch.

Definition step_status (s : step) (e : event) : option Z :=
  match s, e with
  | SettingsPush, ev_set_sensor_settings _ _ r => Some r
  | ModeSet, ev_set_sensor_mode _ r => Some r
  | DataFetch, ev_get_sensor_data _ _ r _ => Some r
  | _, _ => None
  end.

Fixpoint first_some {A B : Type} (f : A -> option B) (l : list A) : option B :=
  match l with
  | [] => None
  | a :: l' => match f a with Some b => Some b | None => first_some f l' end
  end.

(** The status a step reported, if the step was reached. *)
Definition reported (s : step) (l : list event) : option Z :=
  first_some (step_status s) l.

(** What the data-fetch step found in the sample buffer and what it left
    there, if the step was reached. *)
Definition fetched (l : list event)
  : option (bme680_field_data * Z * bme680_field_data) :=
  first_some (fun e => match e with
                       | ev_get_sensor_data buf _ r out => Some (buf, r, out)
                       | _ => None
                       end) l.

(** ** The settings request, as the specification words it

    One selector per channel, and the OR of the selectors of the enabled
    channels. *)
Inductive channel : Type :=
| Temperature | Humidity | Pressure | IIRFilter | GasSensor.

Definition all_channels : list channel :=
  [Temperature; Humidity; Pressure; IIRFilter; GasSensor].

Definition selector {defs : bme680_defs} (c : channel) : Z :=
  match c with
  | Temperature => BME680_OST_SEL
  | Humidity => BME680_OSH_SEL
  | Pressure => BME680_OSP_SEL
  | IIRFilter => BME680_FILTER_SEL
  | GasSensor => BME680_GAS_SENSOR_SEL
  end.

Definition enabled (o : BME680) (c : channel) : bool :=
  match c with
  | Temperature => _tempEnabled o
  | Humidity => _humEnabled o
  | Pressure => _presEnabled o
  | IIRFilter => _filterEnabled o
  | GasSensor => _gasEnabled o
  end.

Definition requested_selectors {defs : bme680_defs} (o : BME680) : Z :=
  fold_right Z.lor 0 (map selector (List.filter (enabled o) all_channels)).

(** ** Assumptions on the header and on the engine *)

(** The selectors are values of the [uint8_t] variable that collects them. *)
Definition selectors_fit (defs : bme680_defs) : Prop :=
  forall c, 0 <= selector c < 256.

(** No two channels share a selector bit. *)
Definition selectors_disjoint (defs : bme680_defs) : Prop :=
  forall c c', c <> c' -> Z.land (selector c) (selector c') = 0.

(** The enumerations are ordered as the header lists them: NONE below 2x,
    4x, 8x, which are at most 16x; size 0 below size 3, at most size 127. *)
Definition enumerations_ordered (defs : bme680_defs) : Prop :=
  BME680_OS_NONE < BME680_OS_2X <= BME680_OS_16X /\
  BME680_OS_NONE < BME680_OS_4X <= BME680_OS_16X /\
  BME680_OS_NONE < BME680_OS_8X <= BME680_OS_16X /\
  BME680_FILTER_SIZE_0 < BME680_FILTER_SIZE_3 <= BME680_FILTER_SIZE_127.

(** The SensorConfiguration of a descriptor: temperature, humidity and
    pressure oversampling, filter size, heater temperature and duration. *)
Definition configuration (d : bme680_dev) : Z * Z * Z * Z * Z * Z :=
  (os_temp (tph_sett d), os_hum (tph_sett d), os_pres (tph_sett d),
   filter (tph_sett d), heatr_temp (gas_sett d), heatr_dur (gas_sett d)).

(** The configuration [begin] installs: temperature 8x, humidity 2x,
    pressure 4x, filter size 3, heater 320 degrees for 150 ms. *)
Definition default_configuration {defs : bme680_defs}
  : Z * Z * Z * Z * Z * Z :=
  (BME680_OS_8X, BME680_OS_2X, BME680_OS_4X, BME680_FILTER_SIZE_3, 320, 150).

(** The engine reads the configuration it is handed and does not rewrite
    it. *)
Definition keeps_configuration {W : Type} (E : engine W) : Prop :=
  (forall dev w,
     configuration (snd (fst (bme680_init E dev w))) = configuration dev) /\
  (forall desired dev w,
     configuration (snd (fst (bme680_set_sensor_settings E desired dev w)))
     = configuration dev) /\
  (forall dev w,
     configuration (snd (fst (bme680_set_sensor_mode E dev w)))
     = configuration dev) /\
  (forall dev w,
     configuration (snd (fst (bme680_get_profile_dur E dev w)))
     = configuration dev) /\
  (forall buf dev w,
     configuration (snd (fst (bme680_get_sensor_data E buf dev w)))
     = configuration dev).

(** ** The validation rule of the range-checked setters

    Above [max]: rejected, the object untouched.  [none]: accepted, the
    channel's flag cleared.  Any other value up to [max]: accepted, the flag
    set. *)
Definition setter_contract (setter : Z -> BME680 -> bool * BME680)
    (flag : BME680 -> bool) (none max : Z) : Prop :=
  forall (v : Z) (o : BME680),
    (v > max -> setter v o = (false, o)) /\
    (v = none ->
     fst (setter v o) = true /\ flag (snd (setter v o)) = false) /\
    (v <= max -> v <> none ->
     fst (setter v o) = true /\ flag (snd (setter v o)) = true).

(** ** A scripted engine

    The stand-in a unit test would use: fixed answers, no world, the
    descriptor left as it is.  [fetch] says what [bme680_get_sensor_data]
    reports and leaves in the buffer it is handed. *)
Record script : Type := mk_script {
  init_rslt : Z;
  settings_rslt : Z;
  mode_rslt : Z;
  profile_dur : Z;
  fetch : bme680_field_data -> Z * bme680_field_data
}.

Definition scripted (s : script) : engine unit :=
  mk_engine unit
    (fun dev w => (init_rslt s, dev, w))
    (fun _ dev w => (settings_rslt s, dev, w))
    (fun dev w => (mode_rslt s, dev, w))
    (fun dev w => (profile_dur s, dev, w))
    (fun buf dev w => (fst (fetch s buf), snd (fetch s buf), dev, w))
    (fun _ w => w).

(** A descriptor and a sample for the examples. *)
Definition blank_dev : bme680_dev :=
  mk_dev 0 0 None None None 0 (mk_tph_sett 0 0 0 0) (mk_gas_sett 0 0 0).
Definition sample_a : bme680_field_data := mk_field_data 176 2550 101325 45000 12345.

(** An object whose five channels are enabled, holding [sample_a]. *)
Definition all_enabled : BME680 :=
  mk_BME680 238 blank_dev sample_a true true true true true.

(** An engine whose every step succeeds and whose fetch delivers a fixed
    sample. *)
Definition engine_ok : engine unit :=
  scripted (mk_script 0 0 0 183
              (fun _ => (0, mk_field_data 176 2127 100400 38250 52000))).

(** An engine whose fetch finds no new sample: like the vendor routine it
    has by then overwritten the status byte of the buffer, and it reports
    the warning code 2. *)
Definition engine_no_new_data : engine unit :=
  scripted (mk_script 0 0 0 183
              (fun buf => (2, mk_field_data 0 (temperature buf) (pressure buf)
                                            (humidity buf) (gas_resistance buf)))).

(** An engine whose settings push fails with the communication error -2. *)
Definition engine_push_fails : engine unit :=
  scripted (mk_script 0 (-2) 0 183 (fun buf => (0, buf))).

(** An engine whose initialisation fails with the code -3 of a device that
    does not answer. *)
Definition engine_init_fails : engine unit :=
  scripted (mk_script (-3) 0 0 183 (fun buf => (0, buf))).

(** ** The flags follow the settings

    Each enable flag is what its setter derives from the stored setting, and
    the stored levels are members of their enumerations. *)
Definition well_configured {defs : bme680_defs} (o : BME680) : Prop :=
  let t := tph_sett (gas_sensor o) in
  let g := gas_sett (gas_sensor o) in
  (os_temp t <= BME680_OS_16X /\
   _tempEnabled o = negb (os_temp t =? BME680_OS_NONE)) /\
  (os_hum t <= BME680_OS_16X /\
   _humEnabled o = negb (os_hum t =? BME680_OS_NONE)) /\
  (os_pres t <= BME680_OS_16X /\
   _presEnabled o = negb (os_pres t =? BME680_OS_NONE)) /\
  (filter t <= BME680_FILTER_SIZE_127 /\
   _filterEnabled o = negb (filter t =? BME680_FILTER_SIZE_0)) /\
  _gasEnabled o = negb ((heatr_temp g =? 0) || (heatr_dur g =? 0)).

(** The members of a descriptor that no setter owns: device id, interface,
    callbacks and power mode. *)
Definition wiring (d : bme680_dev)
  : Z * Z * option callback * option callback * option callback * Z :=
  (dev_id d, intf d, read d, write d, delay_ms d, power_mode d).

(** Everything of the object outside the oversampling and filter settings
    and their four flags. *)
Definition outside_tph (o : BME680)
  : (Z * Z * option callback * option callback * option callback * Z)
    * bme680_gas_sett * bme680_field_data * Z * bool :=
  (wiring (gas_sensor o), gas_sett (gas_sensor o), data o, _adr o,
   _gasEnabled o).

(** A floating-point value that is a number: a zero or a finite value. *)
Definition is_number (x : spec_float) : bool :=
  match x with
  | S754_zero _ | S754_finite _ _ _ => true
  | _ => false
  end.

(** ** Transport callbacks

    [BME680::i2c_read] and [BME680::i2c_write], the callbacks the engine is
    given, over the mbed [I2C] object.  [B] is the bus and what hangs on it.
    Bytes are [Z] in 0..255; the casts between [uint8_t] and [char] keep the
    bit pattern.  A buffer passed by pointer is the list of the bytes from
    that address on.  [None] is a call without a defined result: an index
    outside its array, or a loop that has not ended when the fuel has. *)
Record i2c_bus (B : Type) : Type := mk_i2c_bus {
  (** [int I2C::write(int address, const char *data, int length)] *)
  I2C_write : Z -> list Z -> Z -> B -> Z * B;
  (** [int I2C::read(int address, char *data, int length)]: the status and
      the buffer as the transfer leaves it. *)
  I2C_read : Z -> list Z -> Z -> B -> Z * list Z * B
}.
Arguments I2C_write {B} _ _ _ _ _.
Arguments I2C_read {B} _ _ _ _ _.

(** Conversion of an [int] to [int8_t]: the value modulo 2^8, in
    -128..127. *)
Definition to_int8 (x : Z) : Z := (x + 128) mod 256 - 128.

(** [a[i]] as an rvalue. *)
Definition load {A : Type} (a : list A) (i : Z) : option A :=
  if i <? 0 then None else nth_error a (Z.to_nat i).

(** [a[i] = v]. *)
Fixpoint store_nat {A : Type} (a : list A) (n : nat) (v : A)
  : option (list A) :=
  match a, n with
  | [], _ => None
  | _ :: a', O => Some (v :: a')
  | x :: a', S n' =>
      match store_nat a' n' v with
      | Some r => Some (x :: r)
      | None => None
      end
  end.
Definition store {A : Type} (a : list A) (i : Z) (v : A) : option (list A) :=
  if i <? 0 then None else store_nat a (Z.to_nat i) v.

(** The contents of a [char] array all of whose cells were written. *)
Fixpoint initialised (a : list (option Z)) : option (list Z) :=
  match a with
  | [] => Some []
  | Some b :: a' =>
      match initialised a' with
      | Some r => Some (b :: r)
      | None => None
      end
  | None :: _ => None
  end.

(** [for (uint8_t i = ...; i < bound; i++) log("0x%X ", a[i]);] from the
    current [i]: the body only evaluates [a[i]]. *)
Fixpoint log_loop {A : Type} (fuel : nat) (i bound : Z) (a : list A)
  : option unit :=
  match fuel with
  | O => None
  | S fuel' =>
      if i <? bound then
        match load a i with
        | Some _ => log_loop fuel' (to_uint8 (i + 1)) bound a
        | None => None
        end
      else Some tt
  end.

(** [for (uint8_t i = 1; i < len + 1; i++) data[i] = (char) reg_data[i - 1];]
    from the current [i]. *)
Fixpoint copy_loop (fuel : nat) (i len : Z) (reg_data : list Z)
    (data : list (option Z)) : option (list (option Z)) :=
  match fuel with
  | O => None
  | S fuel' =>
      if i <? len + 1 then
        match load reg_data (i - 1) with
        | Some b =>
            match store data i (Some b) with
            | Some data' => copy_loop fuel' (to_uint8 (i + 1)) len reg_data data'
            | None => None
            end
        | None => None
        end
      else Some data
  end.

Section Transport.
Context {B : Type} (i2c : i2c_bus B).

(** [int8_t BME680::i2c_read(uint8_t dev_id, uint8_t reg_addr,
    uint8_t *reg_data, uint16_t len)]: the status and the buffer and bus it
    leaves. *)
Definition i2c_read (fuel : nat) (dev_id reg_addr : Z) (reg_data : list Z)
    (len : Z) (b : B) : option (Z * list Z * B) :=
  let data := [reg_addr] in
  let '(result, b) := I2C_write i2c dev_id data 1 b in
  let result := to_int8 result in
  let '(result, reg_data, b) := I2C_read i2c dev_id reg_data len b in
  let result := to_int8 result in
  match log_loop fuel 0 len reg_data with
  | Some _ => Some (result, reg_data, b)
  | None => None
  end.

(** [int8_t BME680::i2c_write(uint8_t dev_id, uint8_t reg_addr,
    uint8_t *reg_data, uint16_t len)], by its statements: the status, if
    the call has a defined result, and the bus as the call leaves it, or as
    it is when the call stops having a defined result.
    [char data[len + 1]] starts with no cell written. *)
Definition i2c_write_run (fuel : nat) (dev_id reg_addr : Z)
    (reg_data : list Z) (len : Z) (b : B) : option Z * B :=
  let data := repeat (@None Z) (Z.to_nat (len + 1)) in
  match store data 0 (Some reg_addr) with
  | None => (None, b)
  | Some data =>
      match copy_loop fuel 1 len reg_data data with
      | None => (None, b)
      | Some data =>
          match initialised data with
          | None => (None, b)
          | Some bytes =>
              let '(result, b) := I2C_write i2c dev_id bytes (len + 1) b in
              let result := to_int8 result in
              match log_loop fuel 1 (len + 1) data with
              | Some _ => (Some result, b)
              | None => (None, b)
              end
          end
      end
  end.

(** [i2c_write] as a call: the status and the bus it leaves, when the call
    has a defined result. *)
Definition i2c_write (fuel : nat) (dev_id reg_addr : Z) (reg_data : list Z)
    (len : Z) (b : B) : option (Z * B) :=
  match i2c_write_run fuel dev_id reg_addr reg_data len b with
  | (Some result, b') => Some (result, b')
  | (None, _) => None
  end.

End Transport.

(** A bus for the examples: it keeps the list of the transfers it saw, a
    write as [(address, bytes)] and a read as [(address, [])]; a write is
    acknowledged unless it is addressed to 0, and a read fills the buffer
    with the bytes 1, 2, 3, ... *)
Definition test_bus : i2c_bus (list (Z * list Z)) :=
  mk_i2c_bus (list (Z * list Z))
    (fun addr bytes _ seen =>
       (if addr =? 0 then 1 else 0, seen ++ [(addr, bytes)]))
    (fun addr buf len seen =>
       (0,
        map (fun k => Z.of_nat k + 1) (seq 0 (Z.to_nat len))
          ++ skipn (Z.to_nat len) buf,
        seen ++ [(addr, [])])).

(** * Properties *)

(** ** Setters *)

Section SetterFacts.
Context {defs : bme680_defs}.

Lemma range_checked_setter
    (setter : Z -> BME680 -> bool * BME680) (flag : BME680 -> bool)
    (upd : Z -> BME680 -> BME680) (setflag : bool -> BME680 -> BME680)
    (none max : Z) :
  none <= max ->
  (forall b o, flag (setflag b o) = b) ->
  (forall v o,
      setter v o =
      if v >? max then (false, o)
      else if v =? none then (true, setflag false (upd v o))
           else (true, setflag true (upd v o))) ->
  setter_contract setter flag none max.
Proof.
  intros Hle Hflag Hdef v o.
  rewrite Hdef.
  repeat split.
  - intros Hgt. destruct (Z.gtb_spec v max) as [_ | Hno]; [reflexivity | lia].
  - subst v. destruct (Z.gtb_spec none max); [lia | ].
    rewrite Z.eqb_refl. reflexivity.
  - subst v. destruct (Z.gtb_spec none max); [lia | ].
    rewrite Z.eqb_refl. cbn. apply Hflag.
  - destruct (Z.gtb_spec v max); [lia | ].
    destruct (Z.eqb_spec v none); [contradiction | reflexivity].
  - destruct (Z.gtb_spec v max); [lia | ].
    destruct (Z.eqb_spec v none); [contradiction | cbn; apply Hflag].
Qed.

(** C4: each of the three oversampling setters and [setIIRFilterSize]
    rejects an input above [BME680_OS_16X] (resp.
    [BME680_FILTER_SIZE_127]) with [false] and an untouched object;
    accepts [BME680_OS_NONE] (resp. [BME680_FILTER_SIZE_0]) with [true]
    and the channel's flag cleared; accepts every other input up to the
    maximum with [true] and the flag set. *)
Theorem setters_validate :
  enumerations_ordered defs ->
  setter_contract setTemperatureOversampling _tempEnabled
                  BME680_OS_NONE BME680_OS_16X /\
  setter_contract setHumidityOversampling _humEnabled
                  BME680_OS_NONE BME680_OS_16X /\
  setter_contract setPressureOversampling _presEnabled
                  BME680_OS_NONE BME680_OS_16X /\
  setter_contract setIIRFilterSize _filterEnabled
                  BME680_FILTER_SIZE_0 BME680_FILTER_SIZE_127.
Proof.
  intros (H2 & _ & _ & Hf).
  split; [ | split; [ | split ] ].
  - apply range_checked_setter with
      (upd := fun v o =>
                set_gas_sensor
                  (set_tph_sett (set_os_temp v (tph_sett (gas_sensor o)))
                                (gas_sensor o)) o)
      (setflag := set_tempEnabled); [lia | reflexivity | reflexivity].
  - apply range_checked_setter with
      (upd := fun v o =>
                set_gas_sensor
                  (set_tph_sett (set_os_hum v (tph_sett (gas_sensor o)))
                                (gas_sensor o)) o)
      (setflag := set_humEnabled); [lia | reflexivity | reflexivity].
  - apply range_checked_setter with
      (upd := fun v o =>
                set_gas_sensor
                  (set_tph_sett (set_os_pres v (tph_sett (gas_sensor o)))
                                (gas_sensor o)) o)
      (setflag := set_presEnabled); [lia | reflexivity | reflexivity].
  - apply range_checked_setter with
      (upd := fun v o =>
                set_gas_sensor
                  (set_tph_sett (set_filter v (tph_sett (gas_sensor o)))
                                (gas_sensor o)) o)
      (setflag := set_filterEnabled); [lia | reflexivity | reflexivity].
Qed.

(** C5: [setGasHeater t d] returns [true], stores [t] and [d] as the
    heater temperature and duration, and leaves the gas flag cleared
    exactly when [t] or [d] is zero. *)
Theorem setGasHeater_spec (t d : Z) (o : BME680) :
  fst (setGasHeater t d o) = true /\
  heatr_temp (gas_sett (gas_sensor (snd (setGasHeater t d o)))) = t /\
  heatr_dur (gas_sett (gas_sensor (snd (setGasHeater t d o)))) = d /\
  (_gasEnabled (snd (setGasHeater t d o)) = false <-> t = 0 \/ d = 0).
Proof.
  unfold setGasHeater.
  destruct (Z.eqb_spec t 0) as [Ht | Ht]; destruct (Z.eqb_spec d 0) as [Hd | Hd];
    cbn; repeat split; auto; intros H; try discriminate; lia.
Qed.

End SetterFacts.

(** With the vendor's values, 6 is above the largest oversampling level. *)
Lemma setters_validate_witness :
  enumerations_ordered bosch_defs /\
  setTemperatureOversampling (defs := bosch_defs) 6 all_enabled
  = (false, all_enabled).
Proof.
  assert (H : enumerations_ordered bosch_defs) by (cbv; intuition congruence).
  split; [exact H | ].
  destruct (setters_validate (defs := bosch_defs) H) as [Ht _].
  destruct (Ht 6 all_enabled) as [Hrej _].
  apply Hrej. cbn. lia.
Defined.

(** ** Accessors *)

(** Masking with a one-bit mask is testing that bit. *)
Lemma land_pow2_testbit (a k : Z) :
  0 <= k -> (Z.land a (2 ^ k) =? 0) = negb (Z.testbit a k).
Proof.
  intros Hk.
  assert (Hland : Z.land a (2 ^ k) = if Z.testbit a k then 2 ^ k else 0).
  { apply Z.bits_inj'. intros n Hn.
    rewrite Z.land_spec, Z.pow2_bits_eqb by assumption.
    destruct (Z.eqb_spec k n) as [-> | Hne].
    - destruct (Z.testbit a n); cbn.
      + rewrite Z.pow2_bits_eqb, Z.eqb_refl by assumption. reflexivity.
      + symmetry. apply Z.bits_0.
    - rewrite andb_false_r.
      destruct (Z.testbit a k).
      + rewrite Z.pow2_bits_eqb by assumption.
        symmetry. apply Z.eqb_neq. assumption.
      + symmetry. apply Z.bits_0. }
  rewrite Hland.
  destruct (Z.testbit a k); cbn.
  - apply Z.eqb_neq. pose proof (Z.pow_pos_nonneg 2 k). lia.
  - reflexivity.
Qed.

Section AccessorFacts.
Context {defs : bme680_defs}.

(** C6: a disabled channel reads as its sentinel whatever the sample
    holds: NaN for temperature, humidity and pressure, +0 for gas. *)
Theorem disabled_channel_sentinel (o : BME680) (s : bme680_field_data) :
  (_tempEnabled o = false -> getTemperature (set_data s o) = NAN) /\
  (_humEnabled o = false -> getHumidity (set_data s o) = NAN) /\
  (_presEnabled o = false -> getPressure (set_data s o) = NAN) /\
  (_gasEnabled o = false ->
   getGasResistance (set_data s o) = S754_zero false).
Proof.
  unfold getTemperature, getHumidity, getPressure, getGasResistance.
  cbn [_tempEnabled _humEnabled _presEnabled _gasEnabled set_data].
  repeat split; intros ->; reflexivity.
Qed.

(** C7: when [BME680_HEAT_STAB_MSK] is the mask of bit [k],
    [isGasHeatingSetupStable] is that bit of the sample's status, and
    with the bit clear an enabled gas channel reads as +0 whatever the
    raw gas resistance is. *)
Theorem gas_stability_gate (k : Z) (o : BME680) :
  0 <= k ->
  BME680_HEAT_STAB_MSK = 2 ^ k ->
  isGasHeatingSetupStable o = Z.testbit (status (data o)) k /\
  (Z.testbit (status (data o)) k = false ->
   _gasEnabled o = true ->
   getGasResistance o = S754_zero false).
Proof.
  intros Hk Hmask.
  assert (Hstable : isGasHeatingSetupStable o = Z.testbit (status (data o)) k).
  { unfold isGasHeatingSetupStable.
    rewrite Hmask, land_pow2_testbit by assumption.
    destruct (Z.testbit (status (data o)) k); reflexivity. }
  split; [exact Hstable | ].
  intros Hclear Hgas.
  unfold getGasResistance.
  rewrite Hgas, Hstable, Hclear. reflexivity.
Qed.

End AccessorFacts.

(** C9: with the temperature channel enabled a raw temperature of 2550
    reads as the float of value 25.5, and with the humidity channel enabled
    a raw humidity of 45000 reads as the float of value 45. *)
Theorem unit_conversion (o : BME680) :
  (_tempEnabled o = true -> temperature (data o) = 2550 ->
   exists q, SF2Q (getTemperature o) = Some q /\ (q == 255 # 10)%Q) /\
  (_humEnabled o = true -> humidity (data o) = 45000 ->
   exists q, SF2Q (getHumidity o) = Some q /\ (q == 45)%Q).
Proof.
  split; intros Hen Hraw.
  - unfold getTemperature. rewrite Hen, Hraw.
    eexists. split; [vm_compute; reflexivity | vm_compute; reflexivity].
  - unfold getHumidity. rewrite Hen, Hraw.
    eexists. split; [vm_compute; reflexivity | vm_compute; reflexivity].
Qed.

(** A disabled temperature channel over a fresh sample. *)
Lemma disabled_channel_sentinel_witness :
  _tempEnabled (BME680_new 238 blank_dev sample_a) = false /\
  getTemperature (set_data sample_a (BME680_new 238 blank_dev sample_a)) = NAN.
Proof.
  split; [reflexivity | ].
  apply (disabled_channel_sentinel (defs := bosch_defs)
           (BME680_new 238 blank_dev sample_a) sample_a).
  reflexivity.
Defined.

(** The vendor's mask 0x10 is bit 4; status 0x20 has it clear while the raw
    gas resistance is 12345. *)
Lemma gas_stability_gate_witness :
  let o := set_data (mk_field_data 32 2550 101325 45000 12345) all_enabled in
  0 <= 4 /\
  BME680_HEAT_STAB_MSK (bme680_defs := bosch_defs) = 2 ^ 4 /\
  Z.testbit (status (data o)) 4 = false /\
  _gasEnabled o = true /\
  isGasHeatingSetupStable (defs := bosch_defs) o = false /\
  getGasResistance (defs := bosch_defs) o = S754_zero false.
Proof.
  intros o.
  assert (H0 : 0 <= 4) by lia.
  assert (Hm : BME680_HEAT_STAB_MSK (bme680_defs := bosch_defs) = 2 ^ 4)
    by reflexivity.
  destruct (gas_stability_gate (defs := bosch_defs) 4 o H0 Hm) as [Hs Hg].
  split; [exact H0 | ].
  split; [exact Hm | ].
  split; [reflexivity | ].
  split; [reflexivity | ].
  split; [rewrite Hs; reflexivity | ].
  apply Hg; reflexivity.
Defined.

(** [sample_a] holds the raw values 2550 and 45000. *)
Lemma unit_conversion_witness :
  _tempEnabled all_enabled = true /\
  temperature (data all_enabled) = 2550 /\
  exists q, SF2Q (getTemperature all_enabled) = Some q /\ (q == 255 # 10)%Q.
Proof.
  split; [reflexivity | split; [reflexivity | ] ].
  destruct (unit_conversion all_enabled) as [Ht _].
  apply Ht; reflexivity.
Defined.

(** ** The settings request *)

Lemma to_uint8_range (x : Z) : 0 <= to_uint8 x < 256.
Proof. unfold to_uint8. apply Z.mod_pos_bound. lia. Qed.

Lemma to_uint8_small (x : Z) : 0 <= x < 256 -> to_uint8 x = x.
Proof. intros H. unfold to_uint8. apply Z.mod_small. exact H. Qed.

Lemma lor_uint8 (a b : Z) :
  0 <= a < 256 -> 0 <= b < 256 -> 0 <= Z.lor a b < 256.
Proof.
  intros Ha Hb.
  assert (Hnn : 0 <= Z.lor a b) by (apply Z.lor_nonneg; lia).
  split; [exact Hnn | ].
  destruct (Z.eq_dec (Z.lor a b) 0) as [-> | Hnz]; [lia | ].
  change 256 with (2 ^ 8).
  apply Z.log2_lt_pow2; [lia | ].
  rewrite Z.log2_lor by lia.
  assert (Hlog : forall c, 0 <= c < 256 -> Z.log2 c < 8).
  { intros c Hc. destruct (Z.eq_dec c 0) as [-> | Hc0]; [cbn; lia | ].
    apply Z.log2_lt_pow2; [lia | ]. change (2 ^ 8) with 256. lia. }
  apply Z.max_lub_lt; apply Hlog; assumption.
Qed.

Ltac uint8_range Hfit :=
  repeat first
    [ apply to_uint8_range
    | apply lor_uint8
    | apply (Hfit Temperature) | apply (Hfit Humidity)
    | apply (Hfit Pressure) | apply (Hfit IIRFilter)
    | apply (Hfit GasSensor) ].

(** The [uint8_t] accumulation of the source is the OR of the selectors of
    the enabled channels. *)
Lemma required_settings_requested {defs : bme680_defs} (o : BME680) :
  selectors_fit defs -> required_settings o = requested_selectors o.
Proof.
  intros Hfit.
  unfold required_settings, requested_selectors, all_channels.
  destruct o as [adr d s f t h p g].
  destruct f, t, h, p, g;
    cbn [_tempEnabled _humEnabled _presEnabled _filterEnabled _gasEnabled
         enabled List.filter map fold_right selector];
    rewrite ?Z.lor_0_r, ?Z.lor_0_l;
    repeat (rewrite to_uint8_small by uint8_range Hfit);
    rewrite ?Z.lor_assoc; reflexivity.
Qed.

(** A selector that meets none of the selectors in a list meets none of
    the bits of their OR. *)
Lemma land_or_of_others {defs : bme680_defs} (cs : list channel) (c : channel) :
  (forall c', In c' cs -> Z.land (selector c') (selector c) = 0) ->
  Z.land (fold_right Z.lor 0 (map selector cs)) (selector c) = 0.
Proof.
  induction cs as [ | c' cs IH]; intros Hall; cbn [map fold_right].
  - apply Z.land_0_l.
  - rewrite Z.land_lor_distr_l.
    rewrite (Hall c' (or_introl eq_refl)).
    rewrite IH by (intros c'' Hin; apply Hall; right; exact Hin).
    reflexivity.
Qed.

(** ** The acquisition cycle *)

Ltac engine_call c :=
  let r := fresh "r" in
  let d := fresh "d" in
  let w := fresh "w" in
  let Hc := fresh "Hcall" in
  destruct c as [[r d] w] eqn:Hc.

Ltac status_case r :=
  let Hr := fresh "Hr" in
  destruct (Z.eqb_spec r BME680_OK) as [Hr | Hr]; cbn.

(** Splits a run of [performReading] into its four paths: the settings
    push fails, the mode set fails, the data fetch fails, all succeed. *)
Ltac acquisition_paths :=
  unfold performReading_log, performReading, returned, object_after,
    delay_msec;
  cbn;
  repeat match goal with
    | |- context [bme680_set_sensor_settings ?E ?m ?d ?w] =>
        engine_call (bme680_set_sensor_settings E m d w); cbn
    | |- context [bme680_set_sensor_mode ?E ?d ?w] =>
        engine_call (bme680_set_sensor_mode E d w); cbn
    | |- context [bme680_get_profile_dur ?E ?d ?w] =>
        engine_call (bme680_get_profile_dur E d w); cbn
    | |- context [bme680_get_sensor_data ?E ?b ?d ?w] =>
        let r := fresh "r" in
        let out := fresh "out" in
        let d' := fresh "d" in
        let w' := fresh "w" in
        let Hc := fresh "Hcall" in
        destruct (bme680_get_sensor_data E b d w) as [[[r out] d'] w'] eqn:Hc;
        cbn
    | |- context [negb (?r =? BME680_OK)] => status_case r
    end.

Lemma configuration_set_power_mode (m : Z) (d : bme680_dev) :
  configuration (set_power_mode m d) = configuration d.
Proof. reflexivity. Qed.

(** The request depends on the flags only. *)
Lemma required_settings_set_gas_sensor {defs : bme680_defs}
    (d : bme680_dev) (o : BME680) :
  required_settings (set_gas_sensor d o) = required_settings o.
Proof. reflexivity. Qed.

Section AcquisitionFacts.
Context {defs : bme680_defs} {W : Type} (E : engine W).

(** Recording does not change what [performReading] returns or leaves in
    the object and the world. *)
Lemma recording_performReading (o : BME680) (w : W) (l : list event) :
  let run := performReading (recording E) o (w, l) in
  returned run = returned (performReading E o w) /\
  object_after run = object_after (performReading E o w) /\
  fst (snd run) = snd (performReading E o w).
Proof.
  acquisition_paths; auto.
Qed.

(** [keeps_configuration], call by call. *)
Lemma keeps_configuration_calls :
  keeps_configuration E ->
  (forall m d w r d' w',
      bme680_set_sensor_settings E m d w = (r, d', w') ->
      configuration d' = configuration d) /\
  (forall d w r d' w',
      bme680_set_sensor_mode E d w = (r, d', w') ->
      configuration d' = configuration d) /\
  (forall d w t d' w',
      bme680_get_profile_dur E d w = (t, d', w') ->
      configuration d' = configuration d) /\
  (forall b d w r out d' w',
      bme680_get_sensor_data E b d w = (r, out, d', w') ->
      configuration d' = configuration d).
Proof.
  intros (_ & Hpush & Hmode & Hdur & Hfetch).
  repeat split; intros.
  - specialize (Hpush m d w). rewrite H in Hpush. exact Hpush.
  - specialize (Hmode d w). rewrite H in Hmode. exact Hmode.
  - specialize (Hdur d w). rewrite H in Hdur. exact Hdur.
  - specialize (Hfetch b d w). rewrite H in Hfetch. exact Hfetch.
Qed.

(** C1: [performReading] consults the engine step by step and returns
    [true] exactly when all three fallible steps succeed.  The settings
    push is always made, on the stored descriptor with the power mode
    forced, and reports what the engine answers; the mode set is made
    exactly when the push answered [BME680_OK], on what the push left; the
    data fetch is made exactly when the mode set answered [BME680_OK] too,
    after the duration query and the sleep, on the stored sample.  The
    result is [true] if and only if the engine answers [BME680_OK] to all
    three, and a non-OK report of any of the three makes it [false]. *)
Theorem performReading_true_iff_all_ok (o : BME680) (w : W) :
  let ok := returned (performReading E o w) in
  let l := performReading_log E o w in
  let push :=
    bme680_set_sensor_settings E (required_settings o)
      (set_power_mode BME680_FORCED_MODE (gas_sensor o)) w in
  let mode := bme680_set_sensor_mode E (snd (fst push)) (snd push) in
  let dur := bme680_get_profile_dur E (snd (fst mode)) (snd mode) in
  let fetch :=
    bme680_get_sensor_data E (data o) (snd (fst dur))
      (sleep_for E (fst (fst dur)) (snd dur)) in
  let r1 := fst (fst push) in
  let r2 := fst (fst mode) in
  let r3 := fst (fst (fst fetch)) in
  (reported SettingsPush l = Some r1 /\
   reported ModeSet l = (if r1 =? BME680_OK then Some r2 else None) /\
   reported DataFetch l
   = (if (r1 =? BME680_OK) && (r2 =? BME680_OK) then Some r3 else None)) /\
  (ok = true <-> r1 = BME680_OK /\ r2 = BME680_OK /\ r3 = BME680_OK) /\
  (ok = true <->
   reported SettingsPush l = Some BME680_OK /\
   reported ModeSet l = Some BME680_OK /\
   reported DataFetch l = Some BME680_OK) /\
  (forall (s : step) (r : Z),
      reported s l = Some r -> r <> BME680_OK -> ok = false).
Proof.
  cbv zeta.
  unfold performReading_log, performReading, returned, delay_msec. cbn.
  rewrite !required_settings_set_gas_sensor.
  destruct (bme680_set_sensor_settings E (required_settings o)
              (set_power_mode BME680_FORCED_MODE (gas_sensor o)) w)
    as [[r1 d1] w1].
  cbn.
  destruct (bme680_set_sensor_mode E d1 w1) as [[r2 d2] w2]. cbn.
  destruct (bme680_get_profile_dur E d2 w2) as [[t d3] w3]. cbn.
  destruct (bme680_get_sensor_data E (data o) d3 (sleep_for E t w3))
    as [[[r3 out] d4] w4].
  cbn.
  destruct (Z.eqb_spec r1 BME680_OK) as [H1 | H1]; cbn;
    [destruct (Z.eqb_spec r2 BME680_OK) as [H2 | H2]; cbn;
       [destruct (Z.eqb_spec r3 BME680_OK) as [H3 | H3]; cbn | ] | ].
  all: split; [repeat split | ].
  all: split; [split; [intros H; try discriminate H; repeat split; assumption
                      | intros (K1 & K2 & K3); try reflexivity; contradiction]
              | ].
  all: split; [split; [intros H; try discriminate H; cbn; repeat split; congruence
                      | intros (K1 & K2 & K3); cbn in *; congruence]
              | ].
  all: intros s r Hs Hne; try reflexivity.
  exfalso. destruct s; cbn in Hs; congruence.
Qed.

(** C2, as the code has it: when [performReading] returns [false]
    either the settings push or the mode set reported non-OK, the data
    fetch was never reached and the sample is the one held before the
    call; or the data fetch was handed the sample held before the call,
    reported non-OK, and the sample is whatever the fetch left in that
    buffer. *)
Theorem failed_reading_sample (o : BME680) (w : W) :
  let run := performReading E o w in
  let l := performReading_log E o w in
  returned run = false ->
  ((exists r, r <> BME680_OK /\
              (reported SettingsPush l = Some r \/
               reported ModeSet l = Some r)) /\
   fetched l = None /\
   data (object_after run) = data o)
  \/
  (exists r out, r <> BME680_OK /\
                 fetched l = Some (data o, r, out) /\
                 data (object_after run) = out).
Proof.
  acquisition_paths; intros Hfalse; try discriminate Hfalse.
  - right. exists r2, out.
    split; [assumption | split; reflexivity].
  - left. split; [ | split; reflexivity].
    exists r0. split; [assumption | right; reflexivity].
  - left. split; [ | split; reflexivity].
    exists r. split; [assumption | left; reflexivity].
Qed.

(** C3: under every combination of the five flags the first engine call
    of [performReading] is the settings push, and the bitmask it passes
    is the OR of the selectors of the enabled channels and of nothing
    else; when no two selectors share a bit, no bit of a disabled
    channel's selector is in the request. *)
Theorem settings_request_is_or_of_enabled (o : BME680) (w : W) :
  selectors_fit defs ->
  (exists (dev : bme680_dev) (r : Z),
      hd_error (performReading_log E o w)
      = Some (ev_set_sensor_settings (requested_selectors o) dev r)) /\
  (selectors_disjoint defs ->
   forall c, enabled o c = false ->
             Z.land (requested_selectors o) (selector c) = 0).
Proof.
  intros Hfit. split.
  - rewrite <- (required_settings_requested o Hfit).
    acquisition_paths; eexists; eexists; reflexivity.
  - intros Hdis c Hoff.
    apply land_or_of_others.
    intros c' Hin. apply Hdis.
    apply filter_In in Hin. destruct Hin as [_ Hon].
    intros ->. congruence.
Qed.


End AcquisitionFacts.

(** ** Initialisation *)

Ltac accept_setter :=
  intros Hmax Hnone;
  match goal with
  | |- context [?v >? ?max] =>
      destruct (Z.gtb_spec v max); [lia | ]
  end;
  match goal with
  | |- context [?v =? ?none] =>
      destruct (Z.eqb_spec v none); [lia | reflexivity]
  end.

Section InitialisationFacts.
Context {defs : bme680_defs} {W : Type} (E : engine W).

Lemma setHumidityOversampling_accepts (v : Z) (o : BME680) :
  v <= BME680_OS_16X -> v <> BME680_OS_NONE ->
  snd (setHumidityOversampling v o)
  = set_humEnabled true
      (set_gas_sensor
         (set_tph_sett (set_os_hum v (tph_sett (gas_sensor o)))
                       (gas_sensor o)) o).
Proof. unfold setHumidityOversampling. accept_setter. Qed.

Lemma setPressureOversampling_accepts (v : Z) (o : BME680) :
  v <= BME680_OS_16X -> v <> BME680_OS_NONE ->
  snd (setPressureOversampling v o)
  = set_presEnabled true
      (set_gas_sensor
         (set_tph_sett (set_os_pres v (tph_sett (gas_sensor o)))
                       (gas_sensor o)) o).
Proof. unfold setPressureOversampling. accept_setter. Qed.

Lemma setTemperatureOversampling_accepts (v : Z) (o : BME680) :
  v <= BME680_OS_16X -> v <> BME680_OS_NONE ->
  snd (setTemperatureOversampling v o)
  = set_tempEnabled true
      (set_gas_sensor
         (set_tph_sett (set_os_temp v (tph_sett (gas_sensor o)))
                       (gas_sensor o)) o).
Proof. unfold setTemperatureOversampling. accept_setter. Qed.

Lemma setIIRFilterSize_accepts (v : Z) (o : BME680) :
  v <= BME680_FILTER_SIZE_127 -> v <> BME680_FILTER_SIZE_0 ->
  snd (setIIRFilterSize v o)
  = set_filterEnabled true
      (set_gas_sensor
         (set_tph_sett (set_filter v (tph_sett (gas_sensor o)))
                       (gas_sensor o)) o).
Proof. unfold setIIRFilterSize. accept_setter. Qed.

(** C8: [begin] calls the engine once, its initialisation routine, and
    hands it a descriptor holding the default configuration (humidity 2x,
    pressure 4x, temperature 8x, filter size 3, heater 320 degrees for
    150 ms); it returns [false] exactly when that routine reports non-OK;
    when it returns [true] the five enable flags are set; and when it
    returns [false], with an engine that does not rewrite the
    configuration, the default configuration is what the object holds. *)
Theorem begin_spec (o : BME680) (w : W) :
  enumerations_ordered defs ->
  let run := begin E o w in
  (exists (dev : bme680_dev) (r : Z),
      begin_log E o w = [ev_init dev r] /\
      configuration dev = default_configuration /\
      (returned run = false <-> r <> BME680_OK)) /\
  (returned run = true ->
   enable_flags (object_after run) = [true; true; true; true; true]) /\
  (keeps_configuration E -> returned run = false ->
   configuration (gas_sensor (object_after run)) = default_configuration).
Proof.
  intros (H2 & H4 & H8 & Hf). cbv zeta.
  unfold begin_log, begin, returned, object_after.
  rewrite !setHumidityOversampling_accepts,
          !setPressureOversampling_accepts,
          !setTemperatureOversampling_accepts,
          !setIIRFilterSize_accepts by lia.
  cbn.
  match goal with
  | |- context [bme680_init E ?d w] =>
      pose proof (fun Hk : keeps_configuration E => proj1 Hk d w) as Hinit;
      destruct (bme680_init E d w) as [[r d'] w'] eqn:Hcall
  end.
  cbn in Hinit |- *.
  status_case r.
  - split; [ | split].
    + eexists; eexists. split; [reflexivity | split; [reflexivity | ] ].
      split; [discriminate | congruence].
    + reflexivity.
    + discriminate.
  - split; [ | split].
    + eexists; eexists. split; [reflexivity | split; [reflexivity | ] ].
      split; [intros _; assumption | reflexivity].
    + discriminate.
    + intros Hk _. exact (Hinit Hk).
Qed.

End InitialisationFacts.

(** ** Runs against the scripted engines *)

Lemma scripted_keeps_configuration (s : script) :
  keeps_configuration (scripted s).
Proof. repeat split. Qed.

Lemma bosch_selectors_fit : selectors_fit bosch_defs.
Proof. intros c. destruct c; cbn; lia. Qed.

Lemma bosch_selectors_disjoint : selectors_disjoint bosch_defs.
Proof. intros c c' Hne. destruct c, c'; try reflexivity; contradiction. Qed.

Lemma bosch_enumerations_ordered : enumerations_ordered bosch_defs.
Proof. cbv. intuition congruence. Qed.

(** C2 fails as stated: the fetch of [engine_no_new_data] reports the
    warning 2, so [performReading] returns [false], yet the status byte of
    the stored sample went from 176 to 0, and the gas resistance read
    through [getGasResistance] from 12345 to +0. *)
Lemma sample_overwritten_by_failed_fetch :
  let run :=
    performReading (defs := bosch_defs) engine_no_new_data all_enabled tt in
  returned run = false /\
  data (object_after run) <> data all_enabled /\
  getGasResistance (defs := bosch_defs) all_enabled
  = float_of_int 12345 /\
  getGasResistance (defs := bosch_defs) (object_after run)
  = S754_zero false.
Proof.
  cbv zeta.
  split; [reflexivity | ].
  split; [intros H; discriminate H | ].
  split; reflexivity.
Qed.

(** A failed settings push leaves the sample alone. *)
Lemma failed_reading_sample_witness :
  let run :=
    performReading (defs := bosch_defs) engine_push_fails all_enabled tt in
  returned run = false /\
  data (object_after run) = data all_enabled.
Proof.
  cbv zeta.
  assert (Hfalse :
    returned (performReading (defs := bosch_defs) engine_push_fails
                             all_enabled tt) = false) by reflexivity.
  split; [exact Hfalse | ].
  destruct (failed_reading_sample (defs := bosch_defs) engine_push_fails
              all_enabled tt Hfalse)
    as [(_ & _ & Hsame) | (r & out & _ & Hfetched & _)].
  - exact Hsame.
  - discriminate Hfetched.
Defined.

(** With gas disabled the vendor's selectors for the other four channels
    add up to 23, and none of the three gas bits of 200 is requested. *)
Lemma settings_request_is_or_of_enabled_witness :
  let o := set_gasEnabled false all_enabled in
  selectors_fit bosch_defs /\
  (exists (dev : bme680_dev) (r : Z),
      hd_error (performReading_log (defs := bosch_defs) engine_ok o tt)
      = Some (ev_set_sensor_settings 23 dev r)) /\
  selectors_disjoint bosch_defs /\
  enabled o GasSensor = false /\
  Z.land (requested_selectors (defs := bosch_defs) o) 200 = 0.
Proof.
  intros o.
  destruct (settings_request_is_or_of_enabled (defs := bosch_defs) engine_ok
              o tt bosch_selectors_fit) as [Hfirst Hbits].
  split; [exact bosch_selectors_fit | ].
  split; [exact Hfirst | ].
  split; [exact bosch_selectors_disjoint | ].
  split; [reflexivity | ].
  exact (Hbits bosch_selectors_disjoint GasSensor eq_refl).
Defined.


(** A failed initialisation of a freshly constructed object. *)
Lemma begin_spec_witness :
  let run :=
    begin (defs := bosch_defs) engine_init_fails
          (BME680_new 238 blank_dev sample_a) tt in
  enumerations_ordered bosch_defs /\
  keeps_configuration engine_init_fails /\
  returned run = false /\
  configuration (gas_sensor (object_after run))
  = default_configuration (defs := bosch_defs).
Proof.
  cbv zeta.
  destruct (begin_spec (defs := bosch_defs) engine_init_fails
              (BME680_new 238 blank_dev sample_a) tt
              bosch_enumerations_ordered)
    as (_ & _ & Hconf).
  split; [exact bosch_enumerations_ordered | ].
  split; [apply scripted_keeps_configuration | ].
  split; [reflexivity | ].
  apply Hconf; [apply scripted_keeps_configuration | reflexivity].
Defined.

(** ** End-to-end scenarios, with the vendor's values *)

(** A successful [begin] on a freshly constructed object enables the five
    channels. *)
Example scenario_default_begin :
  let run :=
    begin (defs := bosch_defs) engine_ok (BME680_new 238 blank_dev sample_a) tt in
  returned run = true /\
  enable_flags (object_after run) = [true; true; true; true; true].
Proof. split; reflexivity. Qed.

(** Temperature switched off, then a successful reading: the raw field is
    2127 and the accessor answers NaN. *)
Example scenario_temperature_off :
  let o :=
    snd (setTemperatureOversampling (defs := bosch_defs) 0 all_enabled) in
  let run := performReading (defs := bosch_defs) engine_ok o tt in
  returned run = true /\
  getRawTemperature (object_after run) = 2127 /\
  getTemperature (object_after run) = NAN.
Proof. repeat split. Qed.

(** A failed settings push: every accessor answers as before the call. *)
Example scenario_push_fails :
  let run :=
    performReading (defs := bosch_defs) engine_push_fails all_enabled tt in
  returned run = false /\
  getTemperature (object_after run) = getTemperature all_enabled /\
  getHumidity (object_after run) = getHumidity all_enabled /\
  getPressure (object_after run) = getPressure all_enabled /\
  getGasResistance (defs := bosch_defs) (object_after run)
  = getGasResistance (defs := bosch_defs) all_enabled.
Proof. repeat split. Qed.

(** * Further properties *)

(** ** Setters *)

(** Unfolds the five setters and splits on every comparison they make. *)
Ltac setter_cases :=
  unfold setTemperatureOversampling, setHumidityOversampling,
    setPressureOversampling, setIIRFilterSize, setGasHeater;
  repeat match goal with
    | |- context [?a >? ?b] => destruct (Z.gtb_spec a b)
    | |- context [?a =? ?b] => destruct (Z.eqb_spec a b)
    end;
  cbn.

Section MoreSetterFacts.
Context {defs : bme680_defs}.

(** X1: an accepted level is stored in its own slot of the configuration
    and every other slot keeps its value; [setGasHeater] replaces the two
    heater slots and keeps the four others. *)
Theorem setters_store (v t d : Z) (o : BME680) :
  let '(ot, oh, op, f, ht, hd) := configuration (gas_sensor o) in
  (v <= BME680_OS_16X ->
   configuration (gas_sensor (snd (setTemperatureOversampling v o)))
   = (v, oh, op, f, ht, hd)) /\
  (v <= BME680_OS_16X ->
   configuration (gas_sensor (snd (setHumidityOversampling v o)))
   = (ot, v, op, f, ht, hd)) /\
  (v <= BME680_OS_16X ->
   configuration (gas_sensor (snd (setPressureOversampling v o)))
   = (ot, oh, v, f, ht, hd)) /\
  (v <= BME680_FILTER_SIZE_127 ->
   configuration (gas_sensor (snd (setIIRFilterSize v o)))
   = (ot, oh, op, v, ht, hd)) /\
  configuration (gas_sensor (snd (setGasHeater t d o)))
  = (ot, oh, op, f, t, d).
Proof.
  unfold configuration.
  repeat split; try intros Hle; setter_cases; try reflexivity; lia.
Qed.

(** X2: no setter touches the sample, and a setter of one channel leaves
    what the typed accessors of the other channels return as it was,
    whether it accepts its input or not. *)
Theorem setters_leave_other_channels (v t d : Z) (o : BME680) :
  let oT := snd (setTemperatureOversampling v o) in
  let oH := snd (setHumidityOversampling v o) in
  let oP := snd (setPressureOversampling v o) in
  let oF := snd (setIIRFilterSize v o) in
  let oG := snd (setGasHeater t d o) in
  (data oT = data o /\ getHumidity oT = getHumidity o /\
   getPressure oT = getPressure o /\
   getGasResistance oT = getGasResistance o) /\
  (data oH = data o /\ getTemperature oH = getTemperature o /\
   getPressure oH = getPressure o /\
   getGasResistance oH = getGasResistance o) /\
  (data oP = data o /\ getTemperature oP = getTemperature o /\
   getHumidity oP = getHumidity o /\
   getGasResistance oP = getGasResistance o) /\
  (data oF = data o /\ getTemperature oF = getTemperature o /\
   getHumidity oF = getHumidity o /\ getPressure oF = getPressure o /\
   getGasResistance oF = getGasResistance o) /\
  (data oG = data o /\ getTemperature oG = getTemperature o /\
   getHumidity oG = getHumidity o /\ getPressure oG = getPressure o).
Proof.
  cbv zeta. repeat split; setter_cases; reflexivity.
Qed.

(** X3: a setter called twice with the same argument returns what it
    returned the first time and leaves the object the first call left. *)
Theorem setters_idempotent (v t d : Z) (o : BME680) :
  setTemperatureOversampling v (snd (setTemperatureOversampling v o))
  = setTemperatureOversampling v o /\
  setHumidityOversampling v (snd (setHumidityOversampling v o))
  = setHumidityOversampling v o /\
  setPressureOversampling v (snd (setPressureOversampling v o))
  = setPressureOversampling v o /\
  setIIRFilterSize v (snd (setIIRFilterSize v o)) = setIIRFilterSize v o /\
  setGasHeater t d (snd (setGasHeater t d o)) = setGasHeater t d o.
Proof.
  repeat split; setter_cases; reflexivity.
Qed.

(** X4: setters of different channels commute: either order leaves the
    same object. *)
Theorem setters_commute (a b t d : Z) (o : BME680) :
  let T := fun v o => snd (setTemperatureOversampling v o) in
  let H := fun v o => snd (setHumidityOversampling v o) in
  let P := fun v o => snd (setPressureOversampling v o) in
  let F := fun v o => snd (setIIRFilterSize v o) in
  let G := fun o => snd (setGasHeater t d o) in
  T a (H b o) = H b (T a o) /\ T a (P b o) = P b (T a o) /\
  T a (F b o) = F b (T a o) /\ T a (G o) = G (T a o) /\
  H a (P b o) = P b (H a o) /\ H a (F b o) = F b (H a o) /\
  H a (G o) = G (H a o) /\
  P a (F b o) = F b (P a o) /\ P a (G o) = G (P a o) /\
  F a (G o) = G (F a o).
Proof.
  cbv zeta. repeat split; setter_cases; reflexivity.
Qed.

(** X5: every setter, on every input, keeps the flags following the
    settings and the stored levels inside their enumerations. *)
Theorem setters_keep_well_configured (v t d : Z) (o : BME680) :
  well_configured o ->
  well_configured (snd (setTemperatureOversampling v o)) /\
  well_configured (snd (setHumidityOversampling v o)) /\
  well_configured (snd (setPressureOversampling v o)) /\
  well_configured (snd (setIIRFilterSize v o)) /\
  well_configured (snd (setGasHeater t d o)).
Proof.
  intros Hwc.
  split; [ | split; [ | split; [ | split ] ] ];
    setter_cases; try exact Hwc;
    revert Hwc; unfold well_configured; cbn;
    intros ((HT1 & HT2) & (HH1 & HH2) & (HP1 & HP2) & (HF1 & HF2) & HG);
    repeat split; try assumption; try lia;
    repeat match goal with
      | H : ?a = ?b |- context [?a =? ?b] =>
          rewrite (proj2 (Z.eqb_eq a b) H)
      | H : ?a <> ?b |- context [?a =? ?b] =>
          rewrite (proj2 (Z.eqb_neq a b) H)
      end;
    cbn; rewrite ?orb_true_r; reflexivity.
Qed.

(** X6: after [setGasHeater] the engine's run-gas switch agrees with the
    gas flag: [BME680_ENABLE_GAS_MEAS] when the flag is set,
    [BME680_DISABLE_GAS_MEAS] when it is clear; the oversampling and filter
    settings, the power mode and the other four flags are untouched. *)
Theorem setGasHeater_run_gas (t d : Z) (o : BME680) :
  let o' := snd (setGasHeater t d o) in
  run_gas (gas_sett (gas_sensor o'))
  = (if _gasEnabled o' then BME680_ENABLE_GAS_MEAS
     else BME680_DISABLE_GAS_MEAS) /\
  tph_sett (gas_sensor o') = tph_sett (gas_sensor o) /\
  power_mode (gas_sensor o') = power_mode (gas_sensor o) /\
  firstn 4 (enable_flags o') = firstn 4 (enable_flags o).
Proof.
  cbv zeta. repeat split; setter_cases; reflexivity.
Qed.

End MoreSetterFacts.

(** ** The acquisition cycle, call by call *)

Section MoreAcquisitionFacts.
Context {defs : bme680_defs} {W : Type} (E : engine W).

(** X7: the engine calls of one [performReading], in order.  A failed
    settings push is the only call; a failed mode set is the second and
    last; otherwise the calls are settings push, mode set, duration query, a
    sleep of exactly the duration the query answered, and the data fetch on
    the sample held before the call, whose status decides the result.
    Nothing is retried and nothing follows a failure. *)
Theorem performReading_calls (o : BME680) (w : W) :
  let ok := returned (performReading E o w) in
  let l := performReading_log E o w in
  exists (m : Z) (d0 : bme680_dev),
    (exists r, r <> BME680_OK /\ ok = false /\
               l = [ev_set_sensor_settings m d0 r]) \/
    (exists d1 r, r <> BME680_OK /\ ok = false /\
                  l = [ev_set_sensor_settings m d0 BME680_OK;
                       ev_set_sensor_mode d1 r]) \/
    (exists d1 d2 t d3 r out,
        (ok = true <-> r = BME680_OK) /\
        l = [ev_set_sensor_settings m d0 BME680_OK;
             ev_set_sensor_mode d1 BME680_OK;
             ev_get_profile_dur d2 t;
             ev_sleep_for t;
             ev_get_sensor_data (data o) d3 r out]).
Proof.
  acquisition_paths; eexists; eexists.
  - right; right. subst. exists d, d0, r1, d1, BME680_OK, out.
    split; [split; reflexivity | reflexivity].
  - right; right. subst. exists d, d0, r1, d1, r2, out.
    split; [split; [discriminate | contradiction] | reflexivity].
  - right; left. subst. repeat eexists. assumption.
  - left. repeat eexists. assumption.
Qed.

(** X8: after a successful [performReading] the stored sample is the one
    the fetch left in the buffer, and every accessor, raw or typed, answers
    from that sample under the enable flags as they were before the call. *)
Theorem successful_reading_sample (o : BME680) (w : W) :
  let o' := object_after (performReading E o w) in
  returned (performReading E o w) = true ->
  exists out,
    fetched (performReading_log E o w) = Some (data o, BME680_OK, out) /\
    data o' = out /\
    getRawTemperature o' = temperature out /\
    getRawPressure o' = pressure out /\
    getRawHumidity o' = humidity out /\
    getRawGasResistance o' = gas_resistance out /\
    isGasHeatingSetupStable o' = isGasHeatingSetupStable (set_data out o) /\
    getTemperature o' = getTemperature (set_data out o) /\
    getHumidity o' = getHumidity (set_data out o) /\
    getPressure o' = getPressure (set_data out o) /\
    getGasResistance o' = getGasResistance (set_data out o).
Proof.
  acquisition_paths; intros Hok; try discriminate Hok.
  subst. exists out. repeat split.
Qed.

(** X9: with an engine that does not rewrite the configuration,
    [performReading] keeps the flags following the settings. *)
Theorem performReading_keeps_well_configured (o : BME680) (w : W) :
  keeps_configuration E ->
  well_configured o ->
  well_configured (object_after (performReading E o w)).
Proof.
  intros Hkeep Hwc.
  destruct (keeps_configuration_calls E Hkeep)
    as (Hpush & Hmode & Hdur & Hfetch).
  assert (Hsame : forall o' : BME680,
             enable_flags o' = enable_flags o ->
             configuration (gas_sensor o') = configuration (gas_sensor o) ->
             well_configured o').
  { intros o' Hflags Hconf. revert Hwc.
    unfold well_configured, enable_flags, configuration in *.
    injection Hflags as -> -> -> -> ->.
    injection Hconf as -> -> -> -> -> ->.
    exact (fun H => H). }
  apply Hsame.
  - acquisition_paths; reflexivity.
  - acquisition_paths;
      repeat match goal with
        | Hc : bme680_set_sensor_settings E _ _ _ = _ |- _ =>
            apply Hpush in Hc
        | Hc : bme680_set_sensor_mode E _ _ = _ |- _ => apply Hmode in Hc
        | Hc : bme680_get_profile_dur E _ _ = _ |- _ => apply Hdur in Hc
        | Hc : bme680_get_sensor_data E _ _ _ = _ |- _ =>
            apply Hfetch in Hc
        end;
      rewrite configuration_set_power_mode in *; congruence.
Qed.

(** X10: a [performReading] on a freshly constructed object, before any
    setter or [begin], asks the engine for no setting at all: the request
    is 0. *)
Theorem fresh_object_requests_nothing
    (adr : Z) (d : bme680_dev) (s : bme680_field_data) (w : W) :
  exists (dev : bme680_dev) (r : Z),
    hd_error (performReading_log E (BME680_new adr d s) w)
    = Some (ev_set_sensor_settings 0 dev r).
Proof.
  acquisition_paths; eexists; eexists; reflexivity.
Qed.

(** X11: a channel switched off stays off across a reading: after
    [BME680_OS_NONE] for temperature, humidity or pressure, or a zero heater
    temperature or duration, and one [performReading] with any engine and
    any outcome, the typed accessor answers with its sentinel whatever was
    fetched. *)
Theorem switched_off_channel_across_reading (t d : Z) (o : BME680) (w : W) :
  BME680_OS_NONE <= BME680_OS_16X ->
  let after := fun o1 => object_after (performReading E o1 w) in
  getTemperature
    (after (snd (setTemperatureOversampling BME680_OS_NONE o))) = NAN /\
  getHumidity
    (after (snd (setHumidityOversampling BME680_OS_NONE o))) = NAN /\
  getPressure
    (after (snd (setPressureOversampling BME680_OS_NONE o))) = NAN /\
  (t = 0 \/ d = 0 ->
   getGasResistance (after (snd (setGasHeater t d o))) = S754_zero false).
Proof.
  intros Hle. cbv zeta.
  assert (Hflags : forall o1,
             enable_flags (object_after (performReading E o1 w))
             = enable_flags o1)
    by (intros o1; acquisition_paths; reflexivity).
  unfold enable_flags in Hflags.
  repeat split.
  - specialize (Hflags (snd (setTemperatureOversampling BME680_OS_NONE o))).
    injection Hflags as Ht _ _ _ _.
    unfold getTemperature. rewrite Ht.
    setter_cases; try reflexivity; try lia; contradiction.
  - specialize (Hflags (snd (setHumidityOversampling BME680_OS_NONE o))).
    injection Hflags as _ Hh _ _ _.
    unfold getHumidity. rewrite Hh.
    setter_cases; try reflexivity; try lia; contradiction.
  - specialize (Hflags (snd (setPressureOversampling BME680_OS_NONE o))).
    injection Hflags as _ _ Hp _ _.
    unfold getPressure. rewrite Hp.
    setter_cases; try reflexivity; try lia; contradiction.
  - intros Hzero.
    specialize (Hflags (snd (setGasHeater t d o))).
    injection Hflags as _ _ _ _ Hg.
    unfold getGasResistance. rewrite Hg.
    setter_cases; try reflexivity; lia.
Qed.

End MoreAcquisitionFacts.

(** ** Initialisation, further *)

(** The request a [performReading] opens with. *)
Lemma performReading_log_head {defs : bme680_defs} {W : Type} (E : engine W)
    (o : BME680) (w : W) :
  exists (dev : bme680_dev) (r : Z),
    hd_error (performReading_log E o w)
    = Some (ev_set_sensor_settings (required_settings o) dev r).
Proof.
  acquisition_paths; eexists; eexists; reflexivity.
Qed.

(** With every flag set the request names every channel. *)
Lemma requested_selectors_all {defs : bme680_defs} (o : BME680) :
  enable_flags o = [true; true; true; true; true] ->
  requested_selectors o = fold_right Z.lor 0 (map selector all_channels).
Proof.
  unfold enable_flags, requested_selectors, all_channels.
  intros Hflags. injection Hflags as Ht Hh Hp Hf Hg.
  cbn [List.filter enabled]. rewrite Ht, Hh, Hp, Hf, Hg. reflexivity.
Qed.

(** The oversampling and filter setters own nothing but their settings
    and flags. *)
Lemma setTemperatureOversampling_frame {defs : bme680_defs}
    (v : Z) (o : BME680) :
  outside_tph (snd (setTemperatureOversampling v o)) = outside_tph o.
Proof. setter_cases; reflexivity. Qed.

Lemma setHumidityOversampling_frame {defs : bme680_defs}
    (v : Z) (o : BME680) :
  outside_tph (snd (setHumidityOversampling v o)) = outside_tph o.
Proof. setter_cases; reflexivity. Qed.

Lemma setPressureOversampling_frame {defs : bme680_defs}
    (v : Z) (o : BME680) :
  outside_tph (snd (setPressureOversampling v o)) = outside_tph o.
Proof. setter_cases; reflexivity. Qed.

Lemma setIIRFilterSize_frame {defs : bme680_defs} (v : Z) (o : BME680) :
  outside_tph (snd (setIIRFilterSize v o)) = outside_tph o.
Proof. setter_cases; reflexivity. Qed.

Lemma setGasHeater_frame {defs : bme680_defs} (t d : Z) (o : BME680) :
  let o' := snd (setGasHeater t d o) in
  wiring (gas_sensor o') = wiring (gas_sensor o) /\
  gas_sett (gas_sensor o')
  = mk_gas_sett (if (t =? 0) || (d =? 0) then BME680_DISABLE_GAS_MEAS
                 else BME680_ENABLE_GAS_MEAS) t d /\
  data o' = data o /\ _adr o' = _adr o /\
  _gasEnabled o' = negb ((t =? 0) || (d =? 0)).
Proof. cbv zeta. repeat split; setter_cases; reflexivity. Qed.

Section MoreInitialisationFacts.
Context {defs : bme680_defs} {W : Type} (E : engine W).

(** The object [begin] hands to the engine, once the defaults are
    accepted. *)
Lemma begin_unfolded (o : BME680) (w : W) :
  enumerations_ordered defs ->
  exists o1 : BME680,
    enable_flags o1 = [true; true; true; true; true] /\
    configuration (gas_sensor o1) = default_configuration /\
    begin E o w
    = (let '(result, d, w') := bme680_init E (gas_sensor o1) w in
       if negb (result =? BME680_OK) then (false, set_gas_sensor d o1, w')
       else (true, set_gas_sensor d o1, w')).
Proof.
  intros (H2 & H4 & H8 & Hf).
  unfold begin.
  rewrite !setHumidityOversampling_accepts,
          !setPressureOversampling_accepts,
          !setTemperatureOversampling_accepts,
          !setIIRFilterSize_accepts by lia.
  eexists. split; [ | split; [ | reflexivity] ]; reflexivity.
Qed.

(** X12: whatever the enumerations and the engine, [begin] makes one
    engine call, on a descriptor whose device id is the stored address,
    whose interface is I2C, whose three callbacks are [i2c_read],
    [i2c_write] and [delay_msec], whose heater is set to 320 degrees for
    150 ms with gas measurement switched on, and whose power mode is the
    one stored before; it leaves the sample and the address alone and sets
    the gas flag. *)
Theorem begin_descriptor (o : BME680) (w : W) :
  let o' := object_after (begin E o w) in
  (exists (dev : bme680_dev) (r : Z),
      begin_log E o w = [ev_init dev r] /\
      wiring dev
      = (_adr o, BME680_I2C_INTF, Some cb_i2c_read, Some cb_i2c_write,
         Some cb_delay_msec, power_mode (gas_sensor o)) /\
      gas_sett dev = mk_gas_sett BME680_ENABLE_GAS_MEAS 320 150) /\
  data o' = data o /\
  _adr o' = _adr o /\
  _gasEnabled o' = true.
Proof.
  cbv zeta. unfold begin_log, begin, object_after.
  match goal with
  | |- context [setGasHeater 320 150 ?o4] =>
      set (o5 := snd (setGasHeater 320 150 o4));
      assert (H5 : wiring (gas_sensor o5)
                   = (_adr o, BME680_I2C_INTF, Some cb_i2c_read,
                      Some cb_i2c_write, Some cb_delay_msec,
                      power_mode (gas_sensor o)) /\
                   gas_sett (gas_sensor o5)
                   = mk_gas_sett BME680_ENABLE_GAS_MEAS 320 150 /\
                   data o5 = data o /\ _adr o5 = _adr o /\
                   _gasEnabled o5 = true)
  end.
  { pose proof (setGasHeater_frame 320 150) as Hg.
    subst o5.
    match goal with
    | |- context [setGasHeater 320 150 ?o4] =>
        destruct (Hg o4) as (Hw & Hs & Hd & Ha & He); clear Hg;
        rewrite Hw, Hs, Hd, Ha, He; clear Hw Hs Hd Ha He;
        assert (Hout : outside_tph o4
                       = outside_tph
                           (set_gas_sensor
                              (mk_dev (_adr o) BME680_I2C_INTF
                                      (Some cb_i2c_read) (Some cb_i2c_write)
                                      (Some cb_delay_msec)
                                      (power_mode (gas_sensor o))
                                      (tph_sett (gas_sensor o))
                                      (gas_sett (gas_sensor o))) o))
          by (rewrite setIIRFilterSize_frame,
                setTemperatureOversampling_frame,
                setPressureOversampling_frame,
                setHumidityOversampling_frame; reflexivity);
        pose proof (f_equal (fun x => fst (fst (fst (fst x)))) Hout) as Hw;
        pose proof (f_equal (fun x => snd (fst (fst x))) Hout) as Hd;
        pose proof (f_equal (fun x => snd (fst x)) Hout) as Ha;
        cbn [outside_tph fst snd] in Hw, Hd, Ha;
        rewrite Hw, Hd, Ha
    end.
    repeat split. }
  clearbody o5.
  destruct H5 as (Hw & Hs & Hd & Ha & He).
  cbn.
  destruct (bme680_init E (gas_sensor o5) w) as [[r d'] w']. cbn.
  status_case r;
    (split; [eexists; eexists; repeat split; assumption | repeat split; assumption]).
Qed.

(** X13: when the defaults are members of the enumerations, [begin] sets
    all five enable flags whether the engine's initialisation succeeds or
    not, so the [performReading] that follows asks for every channel: its
    request is the OR of the five selectors. *)
Theorem reading_after_begin_requests_all (o : BME680) (w w1 : W) :
  enumerations_ordered defs ->
  selectors_fit defs ->
  let o' := object_after (begin E o w) in
  enable_flags o' = [true; true; true; true; true] /\
  exists (dev : bme680_dev) (r : Z),
    hd_error (performReading_log E o' w1)
    = Some (ev_set_sensor_settings
              (fold_right Z.lor 0 (map selector all_channels)) dev r).
Proof.
  intros Hord Hfit. cbv zeta.
  assert (Hflags :
    enable_flags (object_after (begin E o w)) = [true; true; true; true; true]).
  { destruct (begin_unfolded o w Hord) as (o1 & Hf1 & _ & ->).
    unfold object_after.
    destruct (bme680_init E (gas_sensor o1) w) as [[r d] w'].
    destruct (negb (r =? BME680_OK)); exact Hf1. }
  split; [exact Hflags | ].
  rewrite <- (requested_selectors_all _ Hflags).
  rewrite <- (required_settings_requested _ Hfit).
  apply performReading_log_head.
Qed.

(** X14: when the defaults are members of the enumerations and the engine
    does not rewrite the configuration, [begin] leaves the flags following
    the settings, from whatever object it starts and whatever it
    returns. *)
Theorem begin_establishes_well_configured (o : BME680) (w : W) :
  enumerations_ordered defs ->
  keeps_configuration E ->
  well_configured (object_after (begin E o w)).
Proof.
  intros Hord Hkeep.
  destruct (begin_unfolded o w Hord) as (o1 & Hf1 & Hc1 & ->).
  pose proof (proj1 Hkeep (gas_sensor o1) w) as Hinit.
  unfold object_after.
  destruct (bme680_init E (gas_sensor o1) w) as [[r d] w'].
  cbn in Hinit.
  assert (Hwc : well_configured (set_gas_sensor d o1)).
  { destruct Hord as (H2 & H4 & H8 & Hf).
    rewrite Hc1 in Hinit.
    unfold enable_flags in Hf1. injection Hf1 as Ht Hh Hp Hfl Hg.
    unfold configuration, default_configuration in Hinit.
    injection Hinit as Hot Hoh Hop Hofi Hht Hhd.
    unfold well_configured. cbn.
    rewrite Ht, Hh, Hp, Hfl, Hg, Hot, Hoh, Hop, Hofi, Hht, Hhd.
    repeat split; try lia;
      symmetry; apply negb_true_iff; apply Z.eqb_neq; lia. }
  destruct (negb (r =? BME680_OK)); exact Hwc.
Qed.

End MoreInitialisationFacts.

(** ** Floating-point results *)

Section Rounding.
Variables prec emax : Z.

Lemma shr_1_nonneg (mrs : shr_record) :
  0 <= shr_m mrs -> 0 <= shr_m (shr_1 mrs).
Proof.
  destruct mrs as [m r s]. cbn [shr_m].
  destruct m as [ | p | p]; [cbn; lia | | lia].
  intros _. destruct p; cbn; lia.
Qed.

Lemma iter_pos_invariant {A : Type} (f : A -> A) (P : A -> Prop) :
  (forall x, P x -> P (f x)) ->
  forall (n : positive) (x : A), P x -> P (iter_pos f n x).
Proof.
  intros Hf n. induction n as [n IH | n IH | ]; intros x Hx; cbn.
  - apply IH, IH, Hf, Hx.
  - apply IH, IH, Hx.
  - apply Hf, Hx.
Qed.

Lemma shr_fexp_nonneg (m e : Z) (l : location) :
  0 <= m -> 0 <= shr_m (fst (shr_fexp prec emax m e l)).
Proof.
  intros Hm. unfold shr_fexp, shr.
  assert (H0 : 0 <= shr_m (shr_record_of_loc m l))
    by (destruct l as [ | [ | | ] ]; exact Hm).
  destruct (fexp prec emax (Zdigits2 m + e) - e) as [ | p | p];
    cbn [fst]; try exact H0.
  apply iter_pos_invariant; [exact shr_1_nonneg | exact H0].
Qed.

Lemma round_nearest_even_nonneg (m : Z) (l : location) :
  0 <= m -> 0 <= round_nearest_even m l.
Proof.
  intros Hm. destruct l as [ | [ | | ] ]; cbn; try lia.
  destruct (Z.even m); lia.
Qed.

(** Rounding a non-negative mantissa never yields NaN. *)
Lemma binary_round_aux_not_nan (sx : bool) (mx ex : Z) (lx : location) :
  0 <= mx -> binary_round_aux prec emax sx mx ex lx <> S754_nan.
Proof.
  intros Hm. unfold binary_round_aux.
  pose proof (shr_fexp_nonneg mx ex lx Hm) as H1.
  destruct (shr_fexp prec emax mx ex lx) as [mrs' e']. cbn [fst] in H1.
  pose proof (shr_fexp_nonneg
                (round_nearest_even (shr_m mrs') (loc_of_shr_record mrs'))
                e' loc_Exact
                (round_nearest_even_nonneg _ _ H1)) as H2.
  destruct (shr_fexp prec emax
              (round_nearest_even (shr_m mrs') (loc_of_shr_record mrs'))
              e' loc_Exact) as [mrs'' e''].
  cbn [fst] in H2.
  destruct (shr_m mrs'') as [ | p | p]; [discriminate | | lia].
  destruct (e'' <=? emax - prec); discriminate.
Qed.

Lemma binary_round_not_nan (sx : bool) (mx : positive) (ex : Z) :
  binary_round prec emax sx mx ex <> S754_nan.
Proof.
  unfold binary_round.
  destruct (shl_align mx ex (fexp prec emax (Z.pos (digits2_pos mx) + ex)))
    as [mz ez].
  apply binary_round_aux_not_nan. lia.
Qed.

Lemma binary_normalize_not_nan (m e : Z) (szero : bool) :
  binary_normalize prec emax m e szero <> S754_nan.
Proof.
  destruct m as [ | p | p]; cbn; try discriminate;
    apply binary_round_not_nan.
Qed.

(** A quotient of two numbers with a non-zero divisor is not NaN. *)
Lemma SFdiv_not_nan (x : spec_float) (sy : bool) (my : positive) (ey : Z) :
  x <> S754_nan ->
  SFdiv prec emax x (S754_finite sy my ey) <> S754_nan.
Proof.
  intros Hx. destruct x as [sx | sx | | sx mx ex]; cbn;
    try discriminate; try contradiction.
  unfold SFdiv_core_binary.
  set (m' := match _ - _ with
             | 0 => Z.pos mx
             | Z.pos _ => Z.shiftl (Z.pos mx) _
             | Z.neg _ => 0
             end).
  assert (Hm' : 0 <= m').
  { subst m'. match goal with |- 0 <= match ?s with _ => _ end =>
      destruct s end; try lia.
    apply Z.shiftl_nonneg. lia. }
  pose proof (Z.div_pos m' (Z.pos my) Hm' ltac:(lia)) as Hq.
  unfold Z.div in Hq.
  destruct (Z.div_eucl m' (Z.pos my)) as [q r]. cbn [fst] in Hq.
  apply binary_round_aux_not_nan. exact Hq.
Qed.

End Rounding.

Lemma float_of_double_not_nan (x : spec_float) :
  x <> S754_nan -> float_of_double x <> S754_nan.
Proof.
  intros Hx. destruct x; cbn; try discriminate; try contradiction.
  apply binary_round_not_nan.
Qed.

(** X15: NaN is an unambiguous sentinel.  For every sample, whatever its
    raw fields, [getTemperature], [getHumidity] and [getPressure] answer
    NaN exactly when their channel is disabled, and [getGasResistance]
    never answers NaN. *)
Theorem nan_exactly_when_disabled {defs : bme680_defs} (o : BME680) :
  (getTemperature o = NAN <-> _tempEnabled o = false) /\
  (getHumidity o = NAN <-> _humEnabled o = false) /\
  (getPressure o = NAN <-> _presEnabled o = false) /\
  getGasResistance o <> NAN.
Proof.
  unfold getTemperature, getHumidity, getPressure, getGasResistance, NAN,
    double_div, float_of_int, double_of_int.
  split; [ | split; [ | split] ].
  - destruct (_tempEnabled o); split; try reflexivity; try discriminate.
    intros H. exfalso. revert H.
    apply float_of_double_not_nan.
    change (binary_normalize 53 1024 100 0 false)
      with (S754_finite false 7036874417766400 (-46)).
    apply SFdiv_not_nan, binary_normalize_not_nan.
  - destruct (_humEnabled o); split; try reflexivity; try discriminate.
    intros H. exfalso. revert H.
    apply float_of_double_not_nan.
    change (binary_normalize 53 1024 1000 0 false)
      with (S754_finite false 8796093022208000 (-43)).
    apply SFdiv_not_nan, binary_normalize_not_nan.
  - destruct (_presEnabled o); split; try reflexivity; try discriminate.
    intros H. exfalso. revert H. apply binary_normalize_not_nan.
  - destruct (_gasEnabled o); [ | discriminate].
    destruct (isGasHeatingSetupStable o); [ | discriminate].
    apply binary_normalize_not_nan.
Qed.

Lemma digits2_pos_bounds (m : positive) :
  2 ^ (Z.pos (digits2_pos m) - 1) <= Z.pos m < 2 ^ Z.pos (digits2_pos m).
Proof.
  induction m as [m IH | m IH | ]; cbn [digits2_pos].
  - rewrite Pos2Z.inj_succ.
    replace (Z.succ (Z.pos (digits2_pos m)) - 1)
      with (Z.succ (Z.pos (digits2_pos m) - 1)) by lia.
    rewrite !Z.pow_succ_r by lia. lia.
  - rewrite Pos2Z.inj_succ.
    replace (Z.succ (Z.pos (digits2_pos m)) - 1)
      with (Z.succ (Z.pos (digits2_pos m) - 1)) by lia.
    rewrite !Z.pow_succ_r by lia. lia.
  - cbn. lia.
Qed.

Lemma iter_xO_value (m k : positive) :
  Z.pos (Pos.iter xO m k) = Z.pos m * 2 ^ Z.pos k.
Proof.
  induction k as [ | k IH] using Pos.peano_ind.
  - cbn. lia.
  - rewrite Pos.iter_succ, Pos2Z.inj_succ, Z.pow_succ_r by lia.
    rewrite Pos2Z.inj_xO, IH. ring.
Qed.

Lemma digits2_iter_xO (m k : positive) :
  digits2_pos (Pos.iter xO m k) = (digits2_pos m + k)%positive.
Proof.
  induction k as [ | k IH] using Pos.peano_ind.
  - cbn. lia.
  - rewrite Pos.iter_succ. cbn [digits2_pos]. rewrite IH. lia.
Qed.

(** A mantissa that already has the format's shape is left as it is. *)
Lemma binary_round_aux_canonical (prec emax : Z) (s : bool) (m : positive)
    (e : Z) :
  fexp prec emax (Z.pos (digits2_pos m) + e) = e ->
  e <= emax - prec ->
  binary_round_aux prec emax s (Z.pos m) e loc_Exact = S754_finite s m e.
Proof.
  intros Hcan Hle.
  unfold binary_round_aux, shr_fexp.
  cbn [Zdigits2 shr_record_of_loc].
  rewrite Hcan, Z.sub_diag. cbn [shr shr_m loc_of_shr_record round_nearest_even].
  cbn [Zdigits2 shr_record_of_loc].
  rewrite Hcan, Z.sub_diag. cbn [shr shr_m].
  destruct (Z.leb_spec e (emax - prec)); [reflexivity | lia].
Qed.

(** Integers of at most 24 bits convert to [float] without rounding. *)
Lemma float_of_int_exact (z : Z) :
  0 <= z < 2 ^ 24 ->
  exists q, SF2Q (float_of_int z) = Some q /\ (q == inject_Z z)%Q.
Proof.
  intros [Hz0 Hz].
  destruct z as [ | m | m]; [ | | lia].
  { exists 0%Q. split; reflexivity. }
  pose proof (digits2_pos_bounds m) as [Hlo Hhi].
  assert (Hd : Z.pos (digits2_pos m) <= 24).
  { destruct (Z.le_gt_cases (Z.pos (digits2_pos m)) 24) as [H | H]; [exact H | ].
    assert (2 ^ 24 <= 2 ^ (Z.pos (digits2_pos m) - 1))
      by (apply Z.pow_le_mono_r; lia).
    lia. }
  unfold float_of_int, binary_normalize, binary_round, shl_align.
  assert (Hfexp : fexp 24 128 (Z.pos (digits2_pos m) + 0)
                  = Z.pos (digits2_pos m) - 24)
    by (unfold fexp, emin; lia).
  rewrite Hfexp, Z.sub_0_r.
  destruct (Z.pos (digits2_pos m) - 24) as [ | k | k] eqn:Hk; [ | lia | ].
  - rewrite binary_round_aux_canonical by (unfold fexp, emin; lia).
    eexists. split; [reflexivity | ].
    cbn. ring.
  - rewrite binary_round_aux_canonical;
      [ | rewrite digits2_iter_xO; unfold fexp, emin; lia | lia].
    eexists. split; [reflexivity | ].
    cbn [cond_Zopp].
    rewrite iter_xO_value, inject_Z_mult, Zpower_Qpower by lia.
    change (Z.neg k) with (- Z.pos k).
    rewrite Qpower_opp.
    rewrite <- Qmult_assoc, Qmult_inv_r; [ring | ].
    apply Qpower_not_0. discriminate.
Qed.

(** X16: when the pressure channel is enabled and the raw pressure is below
    2^24, [getPressure] answers the float whose value is exactly the raw
    pressure; likewise [getGasResistance] for a raw gas resistance below
    2^24 when gas is enabled and the heater is stable.  Above 2^24 the
    conversion rounds: 16777217 reads as 16777216. *)
Theorem integer_readings_exact {defs : bme680_defs} (o : BME680) :
  (_presEnabled o = true -> 0 <= pressure (data o) < 2 ^ 24 ->
   exists q, SF2Q (getPressure o) = Some q /\
             (q == inject_Z (pressure (data o)))%Q) /\
  (_gasEnabled o = true -> isGasHeatingSetupStable o = true ->
   0 <= gas_resistance (data o) < 2 ^ 24 ->
   exists q, SF2Q (getGasResistance o) = Some q /\
             (q == inject_Z (gas_resistance (data o)))%Q) /\
  (_presEnabled o = true -> pressure (data o) = 16777217 ->
   exists q, SF2Q (getPressure o) = Some q /\ (q == 16777216)%Q).
Proof.
  split; [ | split].
  - intros Hen Hraw. unfold getPressure. rewrite Hen.
    apply float_of_int_exact, Hraw.
  - intros Hen Hst Hraw. unfold getGasResistance. rewrite Hen, Hst.
    apply float_of_int_exact, Hraw.
  - intros Hen Hraw. unfold getPressure. rewrite Hen, Hraw.
    eexists. split; vm_compute; reflexivity.
Qed.

(** ** Transport callbacks *)

Lemma to_int8_small (x : Z) : -128 <= x <= 127 -> to_int8 x = x.
Proof. intros H. unfold to_int8. rewrite Z.mod_small by lia. lia. Qed.

Lemma load_of_nat {A : Type} (a : list A) (n : nat) :
  load a (Z.of_nat n) = nth_error a n.
Proof.
  unfold load. destruct (Z.ltb_spec (Z.of_nat n) 0); [lia | ].
  rewrite Nat2Z.id. reflexivity.
Qed.

Lemma store_nat_app {A : Type} (l1 l2 : list A) (x v : A) :
  store_nat (l1 ++ x :: l2) (length l1) v = Some (l1 ++ v :: l2).
Proof.
  induction l1 as [ | y l1 IH]; cbn; [reflexivity | ].
  rewrite IH. reflexivity.
Qed.

Lemma firstn_snoc {A : Type} (l : list A) (n : nat) (b : A) :
  nth_error l n = Some b -> firstn (S n) l = firstn n l ++ [b].
Proof.
  revert n. induction l as [ | x l IH]; intros [ | n] H; cbn in *;
    try discriminate.
  - injection H as ->. reflexivity.
  - rewrite (IH n H). reflexivity.
Qed.

Lemma initialised_map_Some (l : list Z) : initialised (map Some l) = Some l.
Proof.
  induction l as [ | x l IH]; cbn; [reflexivity | ].
  rewrite IH. reflexivity.
Qed.

(** The copy loop, [k] bytes before its end. *)
Lemma copy_loop_copies (reg_addr : Z) (reg_data : list Z) (n : nat) :
  (n <= 254)%nat -> (n <= length reg_data)%nat ->
  forall (k j fuel : nat),
    (j + k = n)%nat -> (k < fuel)%nat ->
    copy_loop fuel (Z.of_nat j + 1) (Z.of_nat n) reg_data
      (Some reg_addr :: map Some (firstn j reg_data) ++ repeat None k)
    = Some (Some reg_addr :: map Some (firstn n reg_data)).
Proof.
  intros Hn Hlen k.
  induction k as [ | k IH]; intros j fuel Hjk Hfuel;
    (destruct fuel as [ | fuel]; [lia | ]); cbn [copy_loop].
  - destruct (Z.ltb_spec (Z.of_nat j + 1) (Z.of_nat n + 1)); [lia | ].
    cbn [repeat]. rewrite app_nil_r.
    replace j with n by lia. reflexivity.
  - destruct (Z.ltb_spec (Z.of_nat j + 1) (Z.of_nat n + 1)); [ | lia].
    replace (Z.of_nat j + 1 - 1) with (Z.of_nat j) by lia.
    rewrite load_of_nat.
    destruct (nth_error reg_data j) as [b | ] eqn:Hb;
      [ | apply nth_error_None in Hb; lia].
    unfold store.
    destruct (Z.ltb_spec (Z.of_nat j + 1) 0); [lia | ].
    replace (Z.to_nat (Z.of_nat j + 1)) with (S j) by lia.
    cbn [store_nat repeat].
    replace j with (length (map Some (firstn j reg_data))) at 2
      by (rewrite length_map, firstn_length_le; lia).
    rewrite store_nat_app.
    replace (to_uint8 (Z.of_nat j + 1 + 1)) with (Z.of_nat (S j) + 1)
      by (unfold to_uint8; rewrite Z.mod_small; lia).
    rewrite <- (IH (S j) fuel) by lia.
    rewrite (firstn_snoc _ _ _ Hb), map_app, <- app_assoc.
    reflexivity.
Qed.

(** A logging loop whose bound fits the index type ends. *)
Lemma log_loop_ends {A : Type} (a : list A) (bound : nat) :
  (bound <= 255)%nat -> (bound <= length a)%nat ->
  forall (k i fuel : nat),
    (i + k = bound)%nat -> (k < fuel)%nat ->
    log_loop fuel (Z.of_nat i) (Z.of_nat bound) a = Some tt.
Proof.
  intros Hb Hlen k.
  induction k as [ | k IH]; intros i fuel Hik Hfuel;
    (destruct fuel as [ | fuel]; [lia | ]); cbn [log_loop].
  - destruct (Z.ltb_spec (Z.of_nat i) (Z.of_nat bound)); [lia | reflexivity].
  - destruct (Z.ltb_spec (Z.of_nat i) (Z.of_nat bound)); [ | lia].
    rewrite load_of_nat.
    destruct (nth_error a i) eqn:Ha; [ | apply nth_error_None in Ha; lia].
    replace (to_uint8 (Z.of_nat i + 1)) with (Z.of_nat (S i))
      by (unfold to_uint8; rewrite Z.mod_small; lia).
    apply IH; lia.
Qed.

(** A loop whose bound is beyond the index type does not end. *)
Lemma log_loop_never_ends {A : Type} (a : list A) (bound : Z) :
  256 <= bound ->
  forall (fuel : nat) (i : Z), 0 <= i <= 255 -> log_loop fuel i bound a = None.
Proof.
  intros Hb fuel.
  induction fuel as [ | fuel IH]; intros i Hi; cbn [log_loop];
    [reflexivity | ].
  destruct (Z.ltb_spec i bound); [ | lia].
  destruct (load a i); [ | reflexivity].
  apply IH. pose proof (to_uint8_range (i + 1)). lia.
Qed.

Lemma copy_loop_never_ends (reg_data : list Z) (len : Z) :
  255 <= len ->
  forall (fuel : nat) (i : Z) (data : list (option Z)),
    0 <= i <= 255 -> copy_loop fuel i len reg_data data = None.
Proof.
  intros Hlen fuel.
  induction fuel as [ | fuel IH]; intros i data Hi; cbn [copy_loop];
    [reflexivity | ].
  destruct (Z.ltb_spec i (len + 1)); [ | lia].
  destruct (load reg_data (i - 1)); [ | reflexivity].
  destruct (store data i (Some z)); [ | reflexivity].
  apply IH. pose proof (to_uint8_range (i + 1)). lia.
Qed.

Section TransportFacts.
Context {B : Type} (i2c : i2c_bus B).

(** X17: for up to 254 payload bytes, [i2c_write] makes exactly one bus
    transfer: a write to [dev_id] of [len + 1] bytes, the register address
    followed by the first [len] bytes of [reg_data]; it returns the status
    of that transfer narrowed to [int8_t], which is the status itself when
    it lies in -128..127. *)
Theorem i2c_write_sends (fuel : nat) (dev_id reg_addr : Z)
    (reg_data : list Z) (len : Z) (b : B) :
  0 <= len <= 254 ->
  (Z.to_nat len <= length reg_data)%nat ->
  (Z.to_nat len + 1 < fuel)%nat ->
  let sent := reg_addr :: firstn (Z.to_nat len) reg_data in
  let status := fst (I2C_write i2c dev_id sent (len + 1) b) in
  i2c_write i2c fuel dev_id reg_addr reg_data len b
  = Some (to_int8 status, snd (I2C_write i2c dev_id sent (len + 1) b)) /\
  (-128 <= status <= 127 -> to_int8 status = status).
Proof.
  intros Hlen Hdata Hfuel. cbv zeta.
  split; [ | apply to_int8_small].
  unfold i2c_write, i2c_write_run.
  replace (Z.to_nat (len + 1)) with (S (Z.to_nat len)) by lia.
  cbn [repeat store Z.ltb Z.compare Z.to_nat store_nat].
  pose proof (copy_loop_copies reg_addr reg_data (Z.to_nat len)
                ltac:(lia) Hdata (Z.to_nat len) 0%nat fuel
                ltac:(lia) ltac:(lia)) as Hcopy.
  cbn [firstn map app Z.of_nat Z.add] in Hcopy.
  rewrite Z2Nat.id in Hcopy by lia.
  rewrite Hcopy.
  change (Some reg_addr :: map Some (firstn (Z.to_nat len) reg_data))
    with (map Some (reg_addr :: firstn (Z.to_nat len) reg_data)).
  rewrite initialised_map_Some.
  destruct (I2C_write i2c dev_id
              (reg_addr :: firstn (Z.to_nat len) reg_data) (len + 1) b)
    as [status b'].
  pose proof (log_loop_ends
                (map Some (reg_addr :: firstn (Z.to_nat len) reg_data))
                (S (Z.to_nat len)) ltac:(lia)
                ltac:(cbn; rewrite length_map, firstn_length_le; lia)
                (Z.to_nat len) 1%nat fuel ltac:(lia) ltac:(lia)) as Hlog.
  replace (Z.of_nat (S (Z.to_nat len))) with (len + 1) in Hlog by lia.
  change (Z.of_nat 1) with 1 in Hlog.
  rewrite Hlog. reflexivity.
Qed.

(** X18: with 255 payload bytes or more, [i2c_write] has no defined
    result however long it runs, and the bus is then as it was before the
    call: no transfer has been made.  Its [uint8_t] index wraps from 255 to
    0 below the bound [len + 1] and the copy reads [reg_data[-1]], before
    the statement that starts the transfer is reached. *)
Theorem i2c_write_overlong (fuel : nat) (dev_id reg_addr : Z)
    (reg_data : list Z) (len : Z) (b : B) :
  255 <= len ->
  i2c_write_run i2c fuel dev_id reg_addr reg_data len b = (None, b) /\
  i2c_write i2c fuel dev_id reg_addr reg_data len b = None.
Proof.
  intros Hlen.
  assert (Hrun : i2c_write_run i2c fuel dev_id reg_addr reg_data len b
                 = (None, b)).
  { unfold i2c_write_run.
    destruct (store (repeat None (Z.to_nat (len + 1))) 0 (Some reg_addr));
      [ | reflexivity].
    rewrite copy_loop_never_ends by lia. reflexivity. }
  split; [exact Hrun | ].
  unfold i2c_write. rewrite Hrun. reflexivity.
Qed.

(** X19: for up to 255 bytes, [i2c_read] makes two bus transfers, a write
    of the single byte [reg_addr] to [dev_id] and then a read of [len]
    bytes from [dev_id] into [reg_data]; it returns the status of the read
    only, so a failed address write is not reported. *)
Theorem i2c_read_transfers (fuel : nat) (dev_id reg_addr : Z)
    (reg_data : list Z) (len : Z) (b : B) :
  0 <= len <= 255 ->
  (Z.to_nat len < fuel)%nat ->
  let b1 := snd (I2C_write i2c dev_id [reg_addr] 1 b) in
  let rd := I2C_read i2c dev_id reg_data len b1 in
  (Z.to_nat len <= length (snd (fst rd)))%nat ->
  i2c_read i2c fuel dev_id reg_addr reg_data len b
  = Some (to_int8 (fst (fst rd)), snd (fst rd), snd rd).
Proof.
  intros Hlen Hfuel. cbv zeta. unfold i2c_read.
  destruct (I2C_write i2c dev_id [reg_addr] 1 b) as [ws b1]. cbn [snd].
  destruct (I2C_read i2c dev_id reg_data len b1) as [[rs buf] b2].
  cbn [fst snd]. intros Hbuf.
  pose proof (log_loop_ends buf (Z.to_nat len) ltac:(lia) Hbuf
                (Z.to_nat len) 0%nat fuel ltac:(lia) Hfuel) as Hlog.
  rewrite Z2Nat.id in Hlog by lia. change (Z.of_nat 0) with 0 in Hlog.
  rewrite Hlog. reflexivity.
Qed.

(** X20: with 256 bytes or more, [i2c_read] has no defined result,
    however long it runs: the [uint8_t] index of its logging loop never
    reaches [len]. *)
Theorem i2c_read_overlong (fuel : nat) (dev_id reg_addr : Z)
    (reg_data : list Z) (len : Z) (b : B) :
  256 <= len ->
  i2c_read i2c fuel dev_id reg_addr reg_data len b = None.
Proof.
  intros Hlen. unfold i2c_read.
  destruct (I2C_write i2c dev_id [reg_addr] 1 b) as [ws b1].
  destruct (I2C_read i2c dev_id reg_data len b1) as [[rs buf] b2].
  rewrite log_loop_never_ends by lia. reflexivity.
Qed.

End TransportFacts.

(** ** The settings request without assumptions on the selectors *)

Lemma to_uint8_lor (a b : Z) :
  to_uint8 (Z.lor a b) = Z.lor (to_uint8 a) (to_uint8 b).
Proof.
  unfold to_uint8. change 256 with (2 ^ 8).
  rewrite <- !Z.land_ones by lia.
  apply Z.land_lor_distr_l.
Qed.

Lemma to_uint8_idem (a : Z) : to_uint8 (to_uint8 a) = to_uint8 a.
Proof. apply to_uint8_small, to_uint8_range. Qed.

(** X21: whatever the selector values, the request [performReading]
    passes is the low eight bits of the OR of the selectors of the enabled
    channels: the [uint8_t] accumulator drops any higher bit. *)
Theorem settings_request_low_byte {defs : bme680_defs} {W : Type}
    (E : engine W) (o : BME680) (w : W) :
  exists (dev : bme680_dev) (r : Z),
    hd_error (performReading_log E o w)
    = Some (ev_set_sensor_settings (to_uint8 (requested_selectors o)) dev r).
Proof.
  assert (Hreq : required_settings o = to_uint8 (requested_selectors o)).
  { unfold required_settings, requested_selectors, all_channels.
    destruct o as [adr d s f t h p g].
    destruct f, t, h, p, g;
      cbn [_tempEnabled _humEnabled _presEnabled _filterEnabled _gasEnabled
           enabled List.filter map fold_right selector];
      repeat (rewrite to_uint8_lor || rewrite to_uint8_idem);
      change (to_uint8 0) with 0;
      rewrite ?Z.lor_0_r, ?Z.lor_0_l, ?Z.lor_assoc;
      reflexivity. }
  rewrite <- Hreq. apply performReading_log_head.
Qed.

(** ** Instances *)

Lemma setters_store_witness :
  3 <= BME680_OS_16X (bme680_defs := bosch_defs) /\
  configuration
    (gas_sensor (snd (setTemperatureOversampling (defs := bosch_defs) 3
                        all_enabled)))
  = (3, 0, 0, 0, 0, 0).
Proof.
  assert (H : 3 <= BME680_OS_16X (bme680_defs := bosch_defs)) by (cbn; lia).
  split; [exact H | ].
  exact (proj1 (setters_store (defs := bosch_defs) 3 0 0 all_enabled) H).
Defined.

Lemma fresh_object_well_configured :
  well_configured (defs := bosch_defs) (BME680_new 238 blank_dev sample_a).
Proof. cbv. intuition congruence. Qed.

Lemma setters_keep_well_configured_witness :
  well_configured (defs := bosch_defs) (BME680_new 238 blank_dev sample_a) /\
  well_configured (defs := bosch_defs)
    (snd (setTemperatureOversampling (defs := bosch_defs) 4
            (BME680_new 238 blank_dev sample_a))).
Proof.
  split; [exact fresh_object_well_configured | ].
  exact (proj1 (setters_keep_well_configured (defs := bosch_defs) 4 0 0
                  (BME680_new 238 blank_dev sample_a)
                  fresh_object_well_configured)).
Defined.

Lemma successful_reading_sample_witness :
  let run := performReading (defs := bosch_defs) engine_ok all_enabled tt in
  returned run = true /\
  exists out, data (object_after run) = out /\ temperature out = 2127.
Proof.
  cbv zeta.
  assert (Hok : returned (performReading (defs := bosch_defs) engine_ok
                            all_enabled tt) = true) by reflexivity.
  split; [exact Hok | ].
  destruct (successful_reading_sample (defs := bosch_defs) engine_ok
              all_enabled tt Hok) as (out & _ & Hdata & _).
  exists out. split; [exact Hdata | ].
  rewrite <- Hdata. reflexivity.
Defined.

Lemma performReading_keeps_well_configured_witness :
  keeps_configuration engine_ok /\
  well_configured (defs := bosch_defs) (BME680_new 238 blank_dev sample_a) /\
  well_configured (defs := bosch_defs)
    (object_after (performReading (defs := bosch_defs) engine_ok
                     (BME680_new 238 blank_dev sample_a) tt)).
Proof.
  split; [apply scripted_keeps_configuration | ].
  split; [exact fresh_object_well_configured | ].
  exact (performReading_keeps_well_configured (defs := bosch_defs) engine_ok
           (BME680_new 238 blank_dev sample_a) tt
           (scripted_keeps_configuration _) fresh_object_well_configured).
Defined.

Lemma switched_off_channel_across_reading_witness :
  BME680_OS_NONE (bme680_defs := bosch_defs)
  <= BME680_OS_16X (bme680_defs := bosch_defs) /\
  getTemperature
    (object_after
       (performReading (defs := bosch_defs) engine_ok
          (snd (setTemperatureOversampling (defs := bosch_defs)
                  (BME680_OS_NONE (bme680_defs := bosch_defs)) all_enabled))
          tt))
  = NAN.
Proof.
  assert (H : BME680_OS_NONE (bme680_defs := bosch_defs)
              <= BME680_OS_16X (bme680_defs := bosch_defs)) by (cbn; lia).
  split; [exact H | ].
  exact (proj1 (switched_off_channel_across_reading (defs := bosch_defs)
                  engine_ok 0 0 all_enabled tt H)).
Defined.

Lemma reading_after_begin_requests_all_witness :
  enumerations_ordered bosch_defs /\
  selectors_fit bosch_defs /\
  exists (dev : bme680_dev) (r : Z),
    hd_error
      (performReading_log (defs := bosch_defs) engine_init_fails
         (object_after (begin (defs := bosch_defs) engine_init_fails
                          (BME680_new 238 blank_dev sample_a) tt)) tt)
    = Some (ev_set_sensor_settings 223 dev r).
Proof.
  split; [exact bosch_enumerations_ordered | ].
  split; [exact bosch_selectors_fit | ].
  exact (proj2 (reading_after_begin_requests_all (defs := bosch_defs)
                  engine_init_fails (BME680_new 238 blank_dev sample_a)
                  tt tt bosch_enumerations_ordered bosch_selectors_fit)).
Defined.

Lemma begin_establishes_well_configured_witness :
  enumerations_ordered bosch_defs /\
  keeps_configuration engine_init_fails /\
  well_configured (defs := bosch_defs)
    (object_after (begin (defs := bosch_defs) engine_init_fails
                     all_enabled tt)).
Proof.
  split; [exact bosch_enumerations_ordered | ].
  split; [apply scripted_keeps_configuration | ].
  exact (begin_establishes_well_configured (defs := bosch_defs)
           engine_init_fails all_enabled tt bosch_enumerations_ordered
           (scripted_keeps_configuration _)).
Defined.

Lemma integer_readings_exact_witness :
  _presEnabled all_enabled = true /\
  0 <= pressure (data all_enabled) < 2 ^ 24 /\
  exists q, SF2Q (getPressure all_enabled) = Some q /\ (q == 101325)%Q.
Proof.
  assert (Hraw : 0 <= pressure (data all_enabled) < 2 ^ 24) by (cbn; lia).
  split; [reflexivity | ].
  split; [exact Hraw | ].
  exact (proj1 (integer_readings_exact (defs := bosch_defs) all_enabled)
           eq_refl Hraw).
Defined.

Lemma i2c_write_sends_witness :
  0 <= 2 <= 254 /\
  (Z.to_nat 2 <= length [16; 32; 48])%nat /\
  (Z.to_nat 2 + 1 < 8)%nat /\
  i2c_write test_bus 8 238 116 [16; 32; 48] 2 []
  = Some (0, [(238, [116; 16; 32])]).
Proof.
  assert (H1 : 0 <= 2 <= 254) by lia.
  assert (H2 : (Z.to_nat 2 <= length [16; 32; 48])%nat) by (cbn; lia).
  assert (H3 : (Z.to_nat 2 + 1 < 8)%nat) by (cbn; lia).
  split; [exact H1 | ]. split; [exact H2 | ]. split; [exact H3 | ].
  exact (proj1 (i2c_write_sends test_bus 8 238 116 [16; 32; 48] 2 []
                  H1 H2 H3)).
Defined.

Lemma i2c_write_overlong_witness :
  255 <= 255 /\
  i2c_write_run test_bus 1000 238 116 (repeat 7 300) 255 [] = (None, []) /\
  i2c_write test_bus 1000 238 116 (repeat 7 300) 255 [] = None.
Proof.
  assert (H : 255 <= 255) by lia.
  split; [exact H | ].
  exact (i2c_write_overlong test_bus 1000 238 116 (repeat 7 300) 255 [] H).
Defined.

(** The address write to device 0 is not acknowledged, and the call still
    reports 0. *)
Lemma i2c_read_transfers_witness :
  0 <= 3 <= 255 /\
  (Z.to_nat 3 < 8)%nat /\
  fst (I2C_write test_bus 0 [29] 1 []) = 1 /\
  i2c_read test_bus 8 0 29 [0; 0; 0; 0] 3 []
  = Some (0, [1; 2; 3; 0], [(0, [29]); (0, [])]).
Proof.
  assert (H1 : 0 <= 3 <= 255) by lia.
  assert (H2 : (Z.to_nat 3 < 8)%nat) by (cbn; lia).
  split; [exact H1 | ]. split; [exact H2 | ]. split; [reflexivity | ].
  apply (i2c_read_transfers test_bus 8 0 29 [0; 0; 0; 0] 3 [] H1 H2).
  vm_compute. lia.
Defined.

Lemma i2c_read_overlong_witness :
  256 <= 256 /\
  i2c_read test_bus 1000 238 29 (repeat 0 300) 256 [] = None.
Proof.
  assert (H : 256 <= 256) by lia.
  split; [exact H | ].
  exact (i2c_read_overlong test_bus 1000 238 29 (repeat 0 300) 256 [] H).
Defined.
